(** * DeepPhysX: NetworkManager and the SOFA worker launcher

    A shallow embedding of
      - [src/DeepPhysX/networks/core/network_manager.py] (class [NetworkManager]),
      - [src/DeepPhysX/simulation/sofa/launcher_sofa_environment.py] (the
        [__main__] block),
    followed by the properties of the specification that concern them.

    Conventions.  Python [int] is [Z]; [str] is [string]; a [dict] is an
    association list in insertion order; an exception is a value of
    [exception] returned in the [Raise] branch of [result]; [numpy] arrays
    carry their shape and a row-major buffer of rationals (exact
    arithmetic stands for the floating point of the source);
    [normalize_data] is also given on arrays of dtype float64, with the
    binary64 arithmetic of the machine. *)

From Stdlib Require Import PrimFloat.
From Stdlib Require Import ZArith QArith List String Ascii Bool Lia.
From Stdlib Require Import DecimalString.
From Stdlib Require Sorted Permutation.
Import ListNotations.

Local Open Scope string_scope.
Local Open Scope Z_scope.

(** ** Exceptions and results *)

(** The exception classes that the modelled code can raise.  [LookupError]
    and [SchemaError] are the two failures of the sample store;
    [OtherError] stands for an exception of any other class, neither a
    [LookupError] nor an [OSError], raised by code outside these sources
    (a simulation module while it is imported, a client while it runs). *)
Inductive exception : Type :=
  | FileNotFoundError
  | NotADirectoryError
  | IsADirectoryError
  | IndexError
  | KeyError
  | LookupError
  | ValueError
  | AttributeError
  | ImportError
  | SyntaxError
  | OtherError (class_name : string)
  | SchemaError.

(** Python's built-in hierarchy: [IndexError] and [KeyError] derive from
    [LookupError]; [FileNotFoundError], [NotADirectoryError] and
    [IsADirectoryError] derive from [OSError]. *)
Definition is_LookupError (e : exception) : bool :=
  match e with
  | IndexError | KeyError | LookupError => true
  | _ => false
  end.

Definition is_OSError (e : exception) : bool :=
  match e with
  | FileNotFoundError | NotADirectoryError | IsADirectoryError => true
  | _ => false
  end.

Inductive result (A : Type) : Type :=
  | Ok (a : A)
  | Raise (e : exception).
Arguments Ok {A} a.
Arguments Raise {A} e.

Definition bind {A B : Type} (r : result A) (k : A -> result B) : result B :=
  match r with
  | Ok a => k a
  | Raise e => Raise e
  end.

Notation "'let*' x ':=' r 'in' k" := (bind r (fun x => k))
  (at level 10, x pattern, r at level 100, k at level 200).

Fixpoint mapM {A B : Type} (f : A -> result B) (l : list A) : result (list B) :=
  match l with
  | [] => Ok []
  | a :: l' =>
      let* b := f a in
      let* bs := mapM f l' in
      Ok (b :: bs)
  end.

(** ** Strings *)

(** [sub in s] of Python. *)
Fixpoint contains (sub s : string) : bool :=
  String.prefix sub s ||
  match s with
  | EmptyString => false
  | String _ s' => contains sub s'
  end.

Fixpoint endswith_char (c : ascii) (s : string) : bool :=
  match s with
  | EmptyString => false
  | String a EmptyString => Ascii.eqb a c
  | String _ s' => endswith_char c s'
  end.

Definition startswith_char (c : ascii) (s : string) : bool :=
  match s with
  | String a _ => Ascii.eqb a c
  | EmptyString => false
  end.

(** [os.sep] on the platforms the launcher targets. *)
Definition sep : ascii := "/"%char.

(** [s.split(c)]. *)
Fixpoint split (c : ascii) (s : string) : list string :=
  match s with
  | EmptyString => [EmptyString]
  | String a s' =>
      if Ascii.eqb a c then EmptyString :: split c s'
      else match split c s' with
           | w :: ws => String a w :: ws
           | [] => [String a EmptyString]
           end
  end.

(** [s.split(c)[-1]]; [split] never returns the empty list. *)
Definition split_last (c : ascii) (s : string) : string :=
  List.last (split c s) EmptyString.

(** [s[:-3]]. *)
Definition drop_last3 (s : string) : string :=
  String.substring 0 (String.length s - 3) s.

(** [str(n)] for an [int]. *)
Definition str_of_int (n : Z) : string :=
  NilZero.string_of_int (Z.to_int n).

(** [template.format(arg)], one positional argument, for the templates
    this module builds: literal text, the escapes [{{] and [}}], and
    automatic fields [{}].  The first automatic field is replaced by the
    argument; a second one asks for an argument that is not there and
    raises [IndexError].  A lone brace raises [ValueError].  Named or
    indexed fields, conversions and format specifications, which cannot
    come from a session name without braces, are not interpreted: they
    are refused with [ValueError] as well.  [used] tells whether the
    argument was already consumed. *)
Fixpoint format_from (used : bool) (template arg : string) : result string :=
  match template with
  | EmptyString => Ok EmptyString
  | String "{" (String "}" rest) =>
      if used then Raise IndexError
      else let* r := format_from true rest arg in Ok (arg ++ r)
  | String "{" (String "{" rest) =>
      let* r := format_from used rest arg in Ok (String "{" r)
  | String "}" (String "}" rest) =>
      let* r := format_from used rest arg in Ok (String "}" r)
  | String "{" _ => Raise ValueError
  | String "}" _ => Raise ValueError
  | String a rest =>
      let* r := format_from used rest arg in Ok (String a r)
  end.

Definition format (template arg : string) : result string :=
  format_from false template arg.

(** [os.path.join(a, b)] (posixpath). *)
Definition join (a b : string) : string :=
  if startswith_char sep b then b
  else if (String.eqb a "" || endswith_char sep a)%bool then a ++ b
  else a ++ "/" ++ b.

(** [sorted] on a list of strings: insertion into the code-point order. *)
Fixpoint insert_sorted (x : string) (l : list string) : list string :=
  match l with
  | [] => [x]
  | y :: l' => if String.leb x y then x :: l else y :: insert_sorted x l'
  end.

Definition sorted (l : list string) : list string :=
  fold_right insert_sorted [] l.

(** Python list indexing [l[i]], negative indices counting from the end. *)
Definition list_index {A : Type} (l : list A) (i : Z) : result A :=
  let n := Z.of_nat (List.length l) in
  let j := if i <? 0 then i + n else i in
  if (j <? 0) || (n <=? j) then Raise IndexError
  else match nth_error l (Z.to_nat j) with
       | Some a => Ok a
       | None => Raise IndexError
       end.


(** ** The file system

    Paths are kept as written.  An entry is a regular file or a directory;
    a directory is stored without its trailing separator.  The order of the
    entries is the order in which [listdir] reports them. *)

Inductive kind : Type := File | Dir.

Definition filesystem : Type := list (string * kind).

Fixpoint fs_lookup (p : string) (fs : filesystem) : option kind :=
  match fs with
  | [] => None
  | (q, k) :: fs' => if String.eqb p q then Some k else fs_lookup p fs'
  end.

(** Drops one trailing separator. *)
Definition rstrip_sep (p : string) : string :=
  if endswith_char sep p then String.substring 0 (String.length p - 1) p else p.

Definition isfile (p : string) (fs : filesystem) : bool :=
  match fs_lookup p fs with
  | Some File => true
  | _ => false
  end.

Definition isdir (p : string) (fs : filesystem) : bool :=
  match fs_lookup (rstrip_sep p) fs with
  | Some Dir => true
  | _ => false
  end.

(** What is left of [p] after the prefix [pre], when [p] starts with it. *)
Fixpoint strip_prefix (pre p : string) : option string :=
  match pre, p with
  | EmptyString, _ => Some p
  | String a pre', String b p' =>
      if Ascii.eqb a b then strip_prefix pre' p' else None
  | String _ _, EmptyString => None
  end.

Definition child_name (d : string) (entry : string * kind) : list string :=
  match strip_prefix (rstrip_sep d ++ "/") (fst entry) with
  | Some n =>
      if (String.eqb n "" || contains "/" n)%bool then [] else [n]
  | None => []
  end.

(** [os.listdir(d)]. *)
Definition listdir (d : string) (fs : filesystem) : result (list string) :=
  match fs_lookup (rstrip_sep d) fs with
  | Some Dir => Ok (flat_map (child_name d) fs)
  | Some File => Raise NotADirectoryError
  | None => Raise FileNotFoundError
  end.

(** [os.remove(p)]. *)
Definition remove (p : string) (fs : filesystem) : result filesystem :=
  match fs_lookup p fs with
  | Some File => Ok (filter (fun e => negb (String.eqb p (fst e))) fs)
  | Some Dir => Raise IsADirectoryError
  | None => Raise FileNotFoundError
  end.

(** Creating or overwriting the regular file [p]. *)
Definition write_file (p : string) (fs : filesystem) : filesystem :=
  match fs_lookup p fs with
  | Some _ => fs
  | None => (fs ++ [(p, File)])%list
  end.

(** ** Dictionaries

    A [dict] keeps one entry per key, in insertion order. *)

Definition dict (V : Type) : Type := list (string * V).

Fixpoint dict_get {V : Type} (k : string) (d : dict V) : option V :=
  match d with
  | [] => None
  | (k', v) :: d' => if String.eqb k k' then Some v else dict_get k d'
  end.

(** [k in d.keys()]. *)
Definition dict_mem {V : Type} (k : string) (d : dict V) : bool :=
  match dict_get k d with
  | Some _ => true
  | None => false
  end.

(** [d[k]], raising [KeyError] on a missing key. *)
Definition dict_item {V : Type} (k : string) (d : dict V) : result V :=
  match dict_get k d with
  | Some v => Ok v
  | None => Raise KeyError
  end.

(** [d[k] = v]: rebinds [k] where it stands, or appends it. *)
Fixpoint dict_set {V : Type} (k : string) (v : V) (d : dict V) : dict V :=
  match d with
  | [] => [(k, v)]
  | (k', v') :: d' =>
      if String.eqb k k' then (k', v) :: d' else (k', v') :: dict_set k v d'
  end.

Definition dict_remove {V : Type} (k : string) (d : dict V) : dict V :=
  filter (fun e => negb (String.eqb k (fst e))) d.

(** [del d[k]]. *)
Definition dict_del {V : Type} (k : string) (d : dict V) : result (dict V) :=
  if dict_mem k d then Ok (dict_remove k d) else Raise KeyError.

Definition dict_keys {V : Type} (d : dict V) : list string := map fst d.

(** [for k in d.keys(): d[k] = f(k, d[k])], the body possibly raising and
    possibly changing the type of the values. *)
Definition dict_mapM {V W : Type} (f : string -> V -> result W) (d : dict V)
  : result (dict W) :=
  mapM (fun e => let* w := f (fst e) (snd e) in Ok (fst e, w)) d.

(** ** Arrays and tensors *)

Record ndarray : Type := mk_ndarray {
  shape : list nat;
  data : list Q
}.

(** A tensor of the learning backend holds the same values as the array it
    was made from; the two conversions belong to the network. *)
Inductive tensor : Type := Tensor (a : ndarray).

Definition tensor_values (t : tensor) : ndarray :=
  match t with Tensor a => a end.

Definition size_of (sh : list nat) : nat := fold_right Nat.mul 1%nat sh.

(** [numpy.array([a])]: one more leading axis, of length one. *)
Definition array1 (a : ndarray) : ndarray :=
  {| shape := 1%nat :: shape a; data := data a |}.

(** [a[0]]: the first block along the leading axis. *)
Definition array_get0 (a : ndarray) : result ndarray :=
  match shape a with
  | [] => Raise IndexError
  | O :: _ => Raise IndexError
  | S _ :: sh => Ok {| shape := sh; data := firstn (size_of sh) (data a) |}
  end.

Definition tensor_get0 (t : tensor) : result tensor :=
  let* a := array_get0 (tensor_values t) in Ok (Tensor a).

(** [a.reshape(-1)]: a new one-dimensional array over the same values;
    [a] itself keeps its shape. *)
Definition reshape_flat (a : ndarray) : ndarray :=
  {| shape := [List.length (data a)]; data := data a |}.

(** Broadcasting a scalar operation over an array. *)
Definition array_map (f : Q -> Q) (a : ndarray) : ndarray :=
  {| shape := shape a; data := map f (data a) |}.

(** Values held by a row that was read from a table: the line id is an
    [int], the fields are arrays. *)
Inductive pyval : Type :=
  | PInt (z : Z)
  | PArray (a : ndarray).

(** [numpy.array([v])]. *)
Definition array_of_singleton (v : pyval) : ndarray :=
  match v with
  | PInt z => {| shape := [1%nat]; data := [inject_Z z] |}
  | PArray a => array1 a
  end.

(** ** The sample store (Exchange table) *)

(** Modelled from the spec: [DatabaseHandler], the sample store, whose code
    is not part of these sources.  Only the volatile Exchange table is kept:
    its registered field names and its rows, each under an auto-assigned
    line id, unique within the table. *)
Record DatabaseHandler : Type := mk_handler {
  exchange_fields : list string;
  exchange_rows : list (Z * dict ndarray);
  first_line_id : Z
}.

Definition row_count (db : DatabaseHandler) : nat :=
  List.length (exchange_rows db).

Fixpoint find_row (line_id : Z) (rows : list (Z * dict ndarray))
  : option (dict ndarray) :=
  match rows with
  | [] => None
  | (i, r) :: rows' => if i =? line_id then Some r else find_row line_id rows'
  end.

Definition registered (db : DatabaseHandler) (d : dict ndarray) : bool :=
  forallb (fun k => existsb (String.eqb k) (exchange_fields db)) (dict_keys d).

(** Modelled from the spec: [create_fields(fields, exchange=True)] registers
    field names for the Exchange table and fails with [SchemaError] when
    rows already exist. *)
Definition create_fields (fields : list string) (db : DatabaseHandler)
  : result DatabaseHandler :=
  match exchange_rows db with
  | [] => Ok {| exchange_fields := (exchange_fields db ++ fields)%list;
                exchange_rows := [];
                first_line_id := first_line_id db |}
  | _ :: _ => Raise SchemaError
  end.

(** Modelled from the spec: [add_data(data, exchange=True)] appends a row
    and returns its line id; [data = {}] pre-allocates an empty row; a field
    written without prior registration is a [SchemaError]. *)
Definition add_data (d : dict ndarray) (db : DatabaseHandler)
  : result (DatabaseHandler * Z) :=
  if registered db d then
    let i := first_line_id db + Z.of_nat (row_count db) in
    Ok ({| exchange_fields := exchange_fields db;
           exchange_rows := (exchange_rows db ++ [(i, d)])%list;
           first_line_id := first_line_id db |}, i)
  else Raise SchemaError.

(** Modelled from the spec: [get_line('Exchange', fields, line_id)] is a
    single-row read that returns the requested fields of the row together
    with its [id]; a line id that does not exist is a [LookupError]. *)
Definition get_line (fields : list string) (line_id : Z) (db : DatabaseHandler)
  : result (dict pyval) :=
  match find_row line_id (exchange_rows db) with
  | None => Raise LookupError
  | Some r =>
      Ok (("id", PInt line_id) ::
          flat_map (fun f => match dict_get f r with
                             | Some a => [(f, PArray a)]
                             | None => []
                             end) fields)
  end.

(** The row [r] with the fields of the payload [d] overwritten where they
    stand, followed by the fields of [d] that [r] did not hold. *)
Definition update_row (d r : dict ndarray) : dict ndarray :=
  (map (fun e => (fst e, match dict_get (fst e) d with
                         | Some v => v
                         | None => snd e
                         end)) r
   ++ filter (fun e => negb (dict_mem (fst e) r)) d)%list.

Fixpoint update_rows (line_id : Z) (d : dict ndarray)
  (rows : list (Z * dict ndarray)) : list (Z * dict ndarray) :=
  match rows with
  | [] => []
  | (i, r) :: rows' =>
      if i =? line_id then (i, update_row d r) :: rows'
      else (i, r) :: update_rows line_id d rows'
  end.

(** Modelled from the spec: [update('Exchange', data, line_id)] overwrites
    in place the fields of an existing row that its payload names and
    leaves the others as they were; a nonexistent row is a [LookupError],
    an unregistered field a [SchemaError]. *)
Definition update (d : dict ndarray) (line_id : Z) (db : DatabaseHandler)
  : result DatabaseHandler :=
  match find_row line_id (exchange_rows db) with
  | None => Raise LookupError
  | Some _ =>
      if registered db d then
        Ok {| exchange_fields := exchange_fields db;
              exchange_rows := update_rows line_id d (exchange_rows db);
              first_line_id := first_line_id db |}
      else Raise SchemaError
  end.

(** ** External collaborators *)

(** The network object: its field lists, its conversions between arrays and
    tensors, its prediction, and what saving a set of parameters under a
    path does to the file system. *)
Record Network : Type := mk_network {
  net_fields : list string;
  pred_fields : list string;
  pred_norm_fields : dict string;
  numpy_to_tensor : ndarray -> tensor;
  tensor_to_numpy : tensor -> ndarray;
  predict : dict tensor -> dict tensor;
  save_parameters : string -> filesystem -> filesystem
}.

Record DataTransformation : Type := mk_transformation {
  transform_before_prediction : dict tensor -> dict tensor;
  transform_before_loss :
    dict tensor -> option (dict tensor) -> dict tensor * option (dict tensor);
  transform_before_apply : dict tensor -> dict tensor
}.

Record Optimization : Type := mk_optimization {
  loss_class : option string;
  loss_is_set : bool;
  optimizer_is_set : bool
}.

(** The attributes and factories of [NetworkConfig] that the manager reads.
    The loss and the optimizer are classes, kept by name. *)
Record NetworkConfig : Type := mk_config {
  cfg_loss : option string;
  cfg_optimizer : option string;
  cfg_save_every_epoch : Z;
  cfg_network_dir : option string;
  cfg_which_network : Z;
  create_network : Network;
  create_data_transformation : DataTransformation
}.

(** Modelled from the spec: [NetworkConfig.training_stuff], which is not in
    these sources, holds when both a loss and an optimizer are supplied. *)
Definition training_stuff (cfg : NetworkConfig) : bool :=
  match cfg_loss cfg, cfg_optimizer cfg with
  | Some _, Some _ => true
  | _, _ => false
  end.

Definition create_optimization (cfg : NetworkConfig) : Optimization :=
  {| loss_class := cfg_loss cfg; loss_is_set := false; optimizer_is_set := false |}.

(** ** The manager and the world it acts on *)

(** Calls with an effect outside the manager, in the order they happen. *)
Inductive event : Type :=
  | Print (s : string)
  | SetDevice
  | SetTrain
  | SetEval
  | LoadParameters (path : string)
  | SaveParameters (path : string)
  | Remove (path : string).

Record world : Type := mk_world {
  fs : filesystem;
  trace : list event
}.

Definition emit (e : event) (w : world) : world :=
  {| fs := fs w; trace := (trace w ++ [e])%list |}.

(** The attributes of a [NetworkManager] instance once [__init__] has
    returned: every branch of the constructor assigns [network_dir].
    [network] is [None] once [close] has deleted the attribute. *)
Record NetworkManager : Type := mk_manager {
  name : string;
  database_handler : DatabaseHandler;
  session : string;
  new_session : bool;
  network_dir : string;
  network_template_name : string;
  saved_counter : Z;
  save_every_epoch : Z;
  network : option Network;
  is_training : bool;
  optimization : Optimization;
  data_transformation : DataTransformation
}.

Definition set_database_handler (db : DatabaseHandler) (m : NetworkManager)
  : NetworkManager :=
  {| name := name m; database_handler := db; session := session m;
     new_session := new_session m; network_dir := network_dir m;
     network_template_name := network_template_name m;
     saved_counter := saved_counter m; save_every_epoch := save_every_epoch m;
     network := network m; is_training := is_training m;
     optimization := optimization m;
     data_transformation := data_transformation m |}.

Definition set_saved_counter (c : Z) (m : NetworkManager) : NetworkManager :=
  {| name := name m; database_handler := database_handler m;
     session := session m; new_session := new_session m;
     network_dir := network_dir m;
     network_template_name := network_template_name m;
     saved_counter := c; save_every_epoch := save_every_epoch m;
     network := network m; is_training := is_training m;
     optimization := optimization m;
     data_transformation := data_transformation m |}.

Definition del_network (m : NetworkManager) : NetworkManager :=
  {| name := name m; database_handler := database_handler m;
     session := session m; new_session := new_session m;
     network_dir := network_dir m;
     network_template_name := network_template_name m;
     saved_counter := saved_counter m; save_every_epoch := save_every_epoch m;
     network := None; is_training := is_training m;
     optimization := optimization m;
     data_transformation := data_transformation m |}.

(** [self.network]; the attribute is missing after [close]. *)
Definition get_network (m : NetworkManager) : result Network :=
  match network m with
  | Some n => Ok n
  | None => Raise AttributeError
  end.

(** *** [link_clients] *)

Fixpoint add_empty_lines (n : nat) (db : DatabaseHandler)
  : result DatabaseHandler :=
  match n with
  | O => Ok db
  | S n' =>
      let* r := add_data [] db in
      add_empty_lines n' (fst r)
  end.

(** [for _ in range(nb_clients)] runs [max(nb_clients, 0)] times. *)
Definition link_clients (nb_clients : option Z) (m : NetworkManager)
  : result NetworkManager :=
  match nb_clients with
  | None => Ok m
  | Some n =>
      let* net := get_network m in
      let fields := (net_fields net ++ pred_fields net)%list in
      let* db := create_fields fields (database_handler m) in
      let* db' := add_empty_lines (Z.to_nat n) db in
      Ok (set_database_handler db' m)
  end.

(** *** [load_network] *)

(** Step 1: the sorted snapshots whose name contains [network_], followed
    by the files whose name contains [networks.]. *)
Definition list_networks (dir : string) (w : world) : result (list string) :=
  let* names := listdir dir (fs w) in
  let networks_list :=
    map (join dir)
        (filter (fun f => isfile (join dir f) (fs w) && contains "network_" f)
                names) in
  let networks_list := sorted networks_list in
  let* names' := listdir dir (fs w) in
  let last_saved_network :=
    map (join dir)
        (filter (fun f => isfile (join dir f) (fs w) && contains "networks." f)
                names') in
  Ok (networks_list ++ last_saved_network)%list.

Definition load_network (which_network : Z) (m : NetworkManager) (w : world)
  : result (NetworkManager * world) :=
  let dir := network_dir m in
  let* networks_list := list_networks dir w in
  let len := Z.of_nat (List.length networks_list) in
  let* sel :=
    if len =? 0 then Raise FileNotFoundError
    else if len =? 1 then Ok (0, w)
    else if which_network >? len then
      Ok (-1, emit (Print ("[" ++ name m ++ "] The networks 'network_"
                           ++ str_of_int (saved_counter m)
                           ++ " doesn't exist, loading the most trained "
                           ++ "by default.")) w)
    else Ok (which_network, w) in
  let* path := list_index networks_list (fst sel) in
  let w1 := emit (Print ("[" ++ name m ++ "]: Loading networks from "
                         ++ path ++ ".")) (snd sel) in
  let* _ := get_network m in
  Ok (m, emit (LoadParameters path) w1).

(** *** [save_network] *)

Definition do_save (path : string) (m : NetworkManager) (w : world)
  : result world :=
  let* net := get_network m in
  Ok {| fs := save_parameters net path (fs w);
        trace := (trace w ++ [SaveParameters path])%list |}.

(** [for temp_file in temp_files: remove(join(self.network_dir, temp_file))]. *)
Fixpoint remove_all (dir : string) (temp_files : list string) (w : world)
  : result world :=
  match temp_files with
  | [] => Ok w
  | f :: rest =>
      let p := join dir f in
      let* fs' := remove p (fs w) in
      remove_all dir rest {| fs := fs'; trace := (trace w ++ [Remove p])%list |}
  end.

Definition save_network (last_save : bool) (m : NetworkManager) (w : world)
  : result (NetworkManager * world) :=
  if last_save then
    (* Final session saving *)
    let dir := network_dir m in
    let path := join dir "networks" in
    let w1 := emit (Print ("[" ++ name m ++ "] Saving final networks at "
                           ++ dir ++ ".")) w in
    let* w2 := do_save path m w1 in
    Ok (m, w2)
  else
    (* Intermediate session saving: remove previous temp file *)
    let dir := network_dir m in
    let* names := listdir dir (fs w) in
    let temp_files := filter (contains "backup") names in
    let* w1 := remove_all dir temp_files w in
    (* Save intermediate state (either checkpoint, either backup) *)
    if save_every_epoch m >? 0 then
      let m1 := set_saved_counter (saved_counter m + 1) m in
      if negb (saved_counter m1 mod save_every_epoch m1 =? 0) then
        let* file := format (network_template_name m1)
                            (str_of_int (saved_counter m1)) in
        let path := join dir file in
        let w2 := emit (Print ("[" ++ name m1
                               ++ "] Saving intermediate networks at "
                               ++ path ++ ".")) w1 in
        let* w3 := do_save path m1 w2 in
        Ok (m1, w3)
      else
        let path := join dir "backup_network" in
        let* w2 := do_save path m1 w1 in
        Ok (m1, w2)
    else
      let path := join dir "backup_network" in
      let* w2 := do_save path m w1 in
      Ok (m, w2).

(** *** [normalize_data] and [compute_online_prediction] *)

Local Open Scope Q_scope.

(** [normalization[0]] is the mean and [normalization[1]] the scale. *)
Definition normalize_data (a : ndarray) (normalization : list Q)
  (reverse : bool) : result ndarray :=
  if reverse then
    (* Unapply normalization *)
    let* scale := list_index normalization 1%Z in
    let* mean := list_index normalization 0%Z in
    Ok (array_map (fun x => x * scale + mean) a)
  else
    (* Apply normalization *)
    let* mean := list_index normalization 0%Z in
    let* scale := list_index normalization 1%Z in
    Ok (array_map (fun x => (x - mean) / scale) a).

Local Close Scope Q_scope.

(** *** [normalize_data] on arrays of dtype float64

    The same method on an array of binary64 values, the coefficients
    being Python floats: every operation is the IEEE 754 one, rounded to
    nearest, and a division by zero gives an infinity or a NaN, not an
    exception. *)

Record ndarray64 : Type := mk_ndarray64 {
  shape64 : list nat;
  data64 : list float
}.

Definition array_map64 (f : float -> float) (a : ndarray64) : ndarray64 :=
  {| shape64 := shape64 a; data64 := map f (data64 a) |}.

Definition normalize_data64 (a : ndarray64) (normalization : list float)
  (reverse : bool) : result ndarray64 :=
  if reverse then
    (* Unapply normalization *)
    let* scale := list_index normalization 1%Z in
    let* mean := list_index normalization 0%Z in
    Ok (array_map64 (fun x => (x * scale + mean)%float) a)
  else
    (* Apply normalization *)
    let* mean := list_index normalization 0%Z in
    let* scale := list_index normalization 1%Z in
    Ok (array_map64 (fun x => ((x - mean) / scale)%float) a).

(** The body of the first loop of [compute_online_prediction]. *)
Definition prepare_field (net : Network) (normalization : dict (list Q))
  (field : string) (v : pyval) : result tensor :=
  let a := array_of_singleton v in
  let* a' :=
    match dict_get field normalization with
    | Some coeffs => normalize_data a coeffs false
    | None => Ok a
    end in
  Ok (numpy_to_tensor net a').

(** The body of the second loop.  The value of [data_pred[field].reshape(-1)]
    is not bound to anything: the entry keeps the array it had. *)
Definition finish_field (net : Network) (normalization : dict (list Q))
  (field : string) (t : tensor) : result ndarray :=
  let* t0 := tensor_get0 t in
  let a := tensor_to_numpy net t0 in
  let* target := dict_item field (pred_norm_fields net) in
  let* a' :=
    if dict_mem target normalization then
      let* target' := dict_item field (pred_norm_fields net) in
      let* coeffs := dict_item target' normalization in
      normalize_data a coeffs true
    else Ok a in
  let _ := reshape_flat a' in
  Ok a'.

(** What the network and the transformations return for a prepared sample. *)
Definition predict_sample (m : NetworkManager) (net : Network)
  (sample : dict tensor) : dict tensor :=
  let data_net := transform_before_prediction (data_transformation m) sample in
  let data_pred := predict net data_net in
  let data_pred := fst (transform_before_loss (data_transformation m) data_pred None) in
  transform_before_apply (data_transformation m) data_pred.

(** [{} if normalization is None else normalization]. *)
Definition or_empty (normalization : option (dict (list Q))) : dict (list Q) :=
  match normalization with
  | None => []
  | Some n => n
  end.

(** The sample read from the Exchange row of the instance, without its
    [id], normalized and converted to tensors. *)
Definition prepared_sample (instance_id : Z) (normalization : dict (list Q))
  (m : NetworkManager) : result (dict tensor) :=
  let* net := get_network m in
  let* sample := get_line (net_fields net) instance_id (database_handler m) in
  let* sample := dict_del "id" sample in
  dict_mapM (prepare_field net normalization) sample.

Definition compute_online_prediction (instance_id : Z)
  (normalization : option (dict (list Q))) (m : NetworkManager)
  : result NetworkManager :=
  (* Get networks data, apply normalization and convert to tensor *)
  let normalization := or_empty normalization in
  let* net := get_network m in
  let* sample := prepared_sample instance_id normalization m in
  (* Compute prediction *)
  let data_pred := predict_sample m net sample in
  (* Return the prediction *)
  let* data_pred := dict_mapM (finish_field net normalization) data_pred in
  let* db := update data_pred instance_id (database_handler m) in
  Ok (set_database_handler db m).

(** *** [close] *)

Definition close (m : NetworkManager) (w : world)
  : result (NetworkManager * world) :=
  let* r := if is_training m then save_network true m w else Ok (m, w) in
  let* _ := get_network (fst r) in
  Ok (del_network (fst r), snd r).

(** *** [__init__] *)

Section Construction.

(** [DeepPhysX.utils.path.copy_dir] and [create_dir] are outside these
    sources: each returns the directory it made and the file system it
    leaves.  [line_id_base] is the id the store gives to the first line
    of a table. *)
Variable copy_dir : string -> string -> string -> filesystem -> string * filesystem.
Variable create_dir : string -> string -> filesystem -> string * filesystem.
Variable line_id_base : Z.

Definition new_database_handler : DatabaseHandler :=
  {| exchange_fields := []; exchange_rows := []; first_line_id := line_id_base |}.

Definition set_loss (o : Optimization) : Optimization :=
  {| loss_class := loss_class o; loss_is_set := true;
     optimizer_is_set := optimizer_is_set o |}.

Definition set_optimizer (o : Optimization) : Optimization :=
  {| loss_class := loss_class o; loss_is_set := loss_is_set o;
     optimizer_is_set := true |}.

Definition init (network_config : NetworkConfig) (pipeline session_ : string)
  (new_session_ : bool) (w : world) : result (NetworkManager * world) :=
  (* Init networks *)
  let net := create_network network_config in
  let w := emit SetDevice w in
  if String.eqb pipeline "training" && negb (training_stuff network_config)
  then Raise ValueError
  else
    let training := String.eqb pipeline "training" in
    (* Init Optimization *)
    let opt := create_optimization network_config in
    let opt := match loss_class opt with
               | Some _ => set_loss opt
               | None => opt
               end in
    let build dir opt :=
      {| name := "NetworkManager";
         database_handler := new_database_handler;
         session := session_;
         new_session := new_session_;
         network_dir := dir;
         network_template_name := split_last sep session_ ++ "_network_{}";
         saved_counter := 0;
         save_every_epoch := cfg_save_every_epoch network_config;
         network := Some net;
         is_training := training;
         optimization := opt;
         data_transformation := create_data_transformation network_config |} in
    if training then
      (* Training configuration *)
      let w := emit SetTrain w in
      let opt := set_optimizer opt in
      match cfg_network_dir network_config with
      | Some src_dir =>
          if new_session_ && isdir src_dir (fs w) then
            let '(dir, fs') := copy_dir src_dir session_ "networks" (fs w) in
            load_network (cfg_which_network network_config) (build dir opt)
                         {| fs := fs'; trace := trace w |}
          else
            let '(dir, fs') := create_dir session_ "networks" (fs w) in
            Ok (build dir opt, {| fs := fs'; trace := trace w |})
      | None =>
          let '(dir, fs') := create_dir session_ "networks" (fs w) in
          Ok (build dir opt, {| fs := fs'; trace := trace w |})
      end
    else
      (* Prediction configuration *)
      let w := emit SetEval w in
      load_network (cfg_which_network network_config)
                   (build (join session_ "networks/") opt) w.

End Construction.

(** ** The worker launcher ([launcher_sofa_environment.py]) *)

(** The keyword arguments given to [TcpIpClient]; the environment class is
    kept by the module and class names it is imported from. *)
Record TcpIpClient : Type := mk_client {
  environment : string * string;
  ip_address : string;
  port : Z;
  instance_id : Z;
  instance_nb : Z
}.

(** How a run of the script ends. *)
Inductive outcome : Type :=
  | Exit (printed : string) (status : Z)
  | Launched (client : TcpIpClient) (printed : string)
  | Uncaught (e : exception).

Definition is_digit (c : ascii) : bool :=
  (48 <=? N.to_nat (N_of_ascii c))%nat && (N.to_nat (N_of_ascii c) <=? 57)%nat.

(** The blanks that [int] skips around an ASCII literal: tab, line feed,
    vertical tab, form feed, carriage return and space. *)
Definition is_space (c : ascii) : bool :=
  let n := N.to_nat (N_of_ascii c) in
  ((9 <=? n)%nat && (n <=? 13)%nat) || (n =? 32)%nat.

Fixpoint lstrip (s : string) : string :=
  match s with
  | EmptyString => EmptyString
  | String c s' => if is_space c then lstrip s' else s
  end.

Fixpoint rstrip (s : string) : string :=
  match s with
  | EmptyString => EmptyString
  | String c s' =>
      match rstrip s' with
      | EmptyString => if is_space c then EmptyString else String c EmptyString
      | r => String c r
      end
  end.

(** Decimal digits, single underscores allowed between two digits;
    [after_digit] tells whether the previous character was a digit. *)
Fixpoint digits_value (acc : Z) (after_digit : bool) (s : string) : option Z :=
  match s with
  | EmptyString => if after_digit then Some acc else None
  | String c s' =>
      if is_digit c
      then digits_value (10 * acc + Z.of_N (N_of_ascii c) - 48) true s'
      else if Ascii.eqb c "_" && after_digit
           then digits_value acc false s'
           else None
  end.

(** [int(s)] on an ASCII string: surrounding blanks, an optional sign,
    decimal digits with optional single underscores between them;
    anything else is a [ValueError].  Two behaviours of Python are left
    out: the digits and blanks outside ASCII that [int] also accepts are
    refused here, and the interpreter's limit on the number of digits of a
    literal is not applied. *)
Definition int_of_str (s : string) : result Z :=
  let r := match lstrip (rstrip s) with
           | String "-" s' => option_map Z.opp (digits_value 0 false s')
           | String "+" s' => digits_value 0 false s'
           | s' => digits_value 0 false s'
           end in
  match r with
  | Some z => Ok z
  | None => Raise ValueError
  end.

Definition usage (argv0 : string) : string :=
  "Usage: python3 " ++ argv0
  ++ " <file_path> <environment_class> <ip_address> <port> <instance_id> "
  ++ "<max_instance_count> <visu_db>".

Section Launcher.

(** [run_client c] is what [client.initialize(); client.launch()] comes
    to: the client runs until it is shut down, or raises.
    [import_environment module cls] is what executing
    [from module import cls as Environment] comes to: nothing, or the
    exception it raises ([SyntaxError] when a name is not an identifier,
    [ImportError] when the module or the class is missing, or whatever
    the module raises while it is imported). *)
Variable import_environment : string -> string -> result unit.
Variable run_client : TcpIpClient -> result unit.

(** The script after its check of the call. *)
Definition launch (argv : list string) : outcome :=
  let run :=
    let* argv1 := list_index argv 1 in
    let* argv2 := list_index argv 2 in
    (* Import environment_class *)
    let module_name := drop_last3 (split_last sep argv1) in
    let* _ := import_environment module_name argv2 in
    (* Create, init and run Tcp-Ip environment *)
    let* argv3 := list_index argv 3 in
    let* argv4 := list_index argv 4 in
    let* p := int_of_str argv4 in
    let* argv5 := list_index argv 5 in
    let* id := int_of_str argv5 in
    let* argv6 := list_index argv 6 in
    let* nb := int_of_str argv6 in
    let client := {| environment := (module_name, argv2);
                     ip_address := argv3; port := p;
                     instance_id := id; instance_nb := nb |} in
    let* _ := run_client client in
    Ok (Launched client
          ("[launcherSofaEnvironment] Shutting down client " ++ argv3)) in
  match run with
  | Ok o => o
  | Raise e => Uncaught e
  end.

Definition main (argv : list string) : outcome :=
  (* Check script call *)
  if negb (Nat.eqb (List.length argv) 7) then
    match list_index argv 0 with
    | Ok argv0 => Exit (usage argv0) 1
    | Raise e => Uncaught e
    end
  else launch argv.

End Launcher.

(** ** Sessions: the calls made on a manager after its construction *)

Inductive call : Type :=
  | CallLinkClients (nb_clients : option Z)
  | CallLoadNetwork (which_network : Z)
  | CallSaveNetwork (last_save : bool)
  | CallOnlinePrediction (instance_id : Z) (normalization : option (dict (list Q))).

Definition is_link_clients (c : call) : bool :=
  match c with
  | CallLinkClients _ => true
  | _ => false
  end.

Definition step (c : call) (s : NetworkManager * world)
  : result (NetworkManager * world) :=
  match c with
  | CallLinkClients n =>
      let* m := link_clients n (fst s) in Ok (m, snd s)
  | CallLoadNetwork i => load_network i (fst s) (snd s)
  | CallSaveNetwork b => save_network b (fst s) (snd s)
  | CallOnlinePrediction i n =>
      let* m := compute_online_prediction i n (fst s) in Ok (m, snd s)
  end.

Fixpoint run (calls : list call) (s : NetworkManager * world)
  : result (NetworkManager * world) :=
  match calls with
  | [] => Ok s
  | c :: calls' =>
      let* s' := step c s in
      run calls' s'
  end.

(** The [k] first intermediate saves of a session. *)
Definition intermediate_saves (k : nat) : list call :=
  repeat (CallSaveNetwork false) k.

(** The last call recorded in the trace of a world. *)
Definition last_event (w : world) : event := List.last (trace w) SetDevice.

(** The attributes set once by the constructor. *)
Definition same_configuration (m m' : NetworkManager) : Prop :=
  name m' = name m
  /\ network_dir m' = network_dir m
  /\ network_template_name m' = network_template_name m
  /\ save_every_epoch m' = save_every_epoch m
  /\ network m' = network m
  /\ is_training m' = is_training m.

(** ** A small session used in the examples *)

(** A network with one input field and one output field [X] whose reverse
    normalization is registered under [ground_truth]; it answers every
    sample with [output] and saves its parameters in a [.pth] file. *)
Definition example_network (output : ndarray) : Network :=
  {| net_fields := ["input"];
     pred_fields := ["X"];
     pred_norm_fields := [("X", "ground_truth")];
     numpy_to_tensor := Tensor;
     tensor_to_numpy := tensor_values;
     predict := fun _ => [("X", Tensor output)];
     save_parameters := fun path => write_file (path ++ ".pth") |}.

Definition example_transformation : DataTransformation :=
  {| transform_before_prediction := fun d => d;
     transform_before_loss := fun d o => (d, o);
     transform_before_apply := fun d => d |}.

Definition example_config (loss optimizer : option string)
  (save_every : Z) (output : ndarray) : NetworkConfig :=
  {| cfg_loss := loss;
     cfg_optimizer := optimizer;
     cfg_save_every_epoch := save_every;
     cfg_network_dir := None;
     cfg_which_network := -1;
     create_network := example_network output;
     create_data_transformation := example_transformation |}.

(** [create_dir] and [copy_dir] as plain directory creation. *)
Definition example_create_dir (session_dir session_name : string)
  (f : filesystem) : string * filesystem :=
  (join session_dir (session_name ++ "/"),
   (f ++ [(join session_dir session_name, Dir)])%list).

Definition example_copy_dir (src_dir dest_dir sub_folders : string)
  (f : filesystem) : string * filesystem :=
  example_create_dir dest_dir sub_folders f.

(** One batch of one scalar sample: shape [(1, 1)]. *)
Definition scalar_output (q : Q) : ndarray :=
  {| shape := [1%nat; 1%nat]; data := [q] |}.

(** One batch of one 2x2 grid: shape [(1, 2, 2)]. *)
Definition grid_output : ndarray :=
  {| shape := [1%nat; 2%nat; 2%nat]; data := [1#1; 2#1; 3#1; 4#1]%Q |}.

(** A manager as [__init__] leaves it for the session [sessions/default]. *)
Definition example_manager (training : bool) (save_every : Z)
  (output : ndarray) : NetworkManager :=
  {| name := "NetworkManager";
     database_handler :=
       {| exchange_fields := []; exchange_rows := []; first_line_id := 0 |};
     session := "sessions/default";
     new_session := true;
     network_dir := "sessions/default/networks/";
     network_template_name := "default_network_{}";
     saved_counter := 0;
     save_every_epoch := save_every;
     network := Some (example_network output);
     is_training := training;
     optimization :=
       {| loss_class := Some "MSELoss"; loss_is_set := true;
          optimizer_is_set := training |};
     data_transformation := example_transformation |}.

Definition session_dirs : filesystem :=
  [("sessions", Dir); ("sessions/default", Dir)].

(** The session directory with an empty [networks] directory, and with two
    saved snapshots. *)
Definition empty_networks_world : world :=
  {| fs := (session_dirs ++ [("sessions/default/networks", Dir)])%list;
     trace := [] |}.

Definition two_snapshots_world : world :=
  {| fs := (session_dirs
            ++ [("sessions/default/networks", Dir);
                ("sessions/default/networks/default_network_1.pth", File);
                ("sessions/default/networks/default_network_2.pth", File)])%list;
     trace := [] |}.

(** The same manager in prediction mode, with an Exchange table of one row
    (line id 0) that holds the input of the instance. *)
Definition example_exchange_manager (output : ndarray) : NetworkManager :=
  set_database_handler
    {| exchange_fields := ["input"; "X"];
       exchange_rows := [(0, [("input", {| shape := [1%nat]; data := [5#1]%Q |})])];
       first_line_id := 0 |}
    (example_manager false 0 output).

(** A client run that returns at once. *)
Definition example_run_client (c : TcpIpClient) : result unit := Ok tt.

(** ** [compute_prediction_and_loss] *)

(** [numpy.array(l)] for a list of arrays: a new leading axis over arrays
    of one shape; arrays of different shapes are refused with
    [ValueError]. *)
Definition array_of_list (l : list ndarray) : result ndarray :=
  match l with
  | [] => Ok {| shape := [0%nat]; data := [] |}
  | a :: rest =>
      if forallb (fun b => if list_eq_dec Nat.eq_dec (shape b) (shape a)
                           then true else false) rest
      then Ok {| shape := List.length l :: shape a;
                 data := flat_map data l |}
      else Raise ValueError
  end.

Section PredictionAndLoss.

(** What the method needs beyond the attributes modelled so far:
    [self.network.opt_fields]; [self.database_handler.get_lines], which
    returns for each field the arrays of the requested lines, in order;
    [self.network.numpy_to_tensor] with its [grad] argument; and
    [self.optimization.compute_loss]. *)
Variable opt_fields : list string.
Variable get_lines :
  list string -> list Z -> DatabaseHandler -> result (dict (list ndarray)).
Variable numpy_to_tensor_grad : ndarray -> bool -> tensor.
Variable compute_loss : dict tensor -> option (dict tensor) -> dict Q.

(** The body of the loop over the fields of a batch. *)
Definition prepare_batch_field (optimize : bool) (normalization : dict (list Q))
  (field : string) (lines : list ndarray) : result tensor :=
  let* a := array_of_list lines in
  let* a' :=
    match dict_get field normalization with
    | Some coeffs => normalize_data a coeffs false
    | None => Ok a
    end in
  Ok (numpy_to_tensor_grad a' optimize).

(** The result is the loss together with a flag telling whether
    [self.optimization.optimize()] was called. *)
Definition compute_prediction_and_loss (optimize : bool) (data_lines : list Z)
  (normalization : option (dict (list Q))) (m : NetworkManager)
  : result (dict Q * bool) :=
  (* 1. Define networks and Optimization batches *)
  let normalization := or_empty normalization in
  let* net := get_network m in
  let* batch := get_lines (net_fields net) data_lines (database_handler m) in
  let* data_net := dict_mapM (prepare_batch_field optimize normalization) batch in
  let* batch := get_lines opt_fields data_lines (database_handler m) in
  let* data_opt := dict_mapM (prepare_batch_field optimize normalization) batch in
  (* 2. Compute prediction *)
  let data_net := transform_before_prediction (data_transformation m) data_net in
  let data_pred := predict net data_net in
  (* 3. Compute loss *)
  let pred_opt :=
    transform_before_loss (data_transformation m) data_pred (Some data_opt) in
  let data_loss := compute_loss (fst pred_opt) (snd pred_opt) in
  (* 4. Optimize networks if training *)
  Ok (data_loss, optimize).

End PredictionAndLoss.

(** ** More worlds and collaborators for the examples *)

Definition prediction_manager : NetworkManager :=
  example_manager false 0 (scalar_output (3#1)).

Definition training_manager (save_every : Z) : NetworkManager :=
  example_manager true save_every (scalar_output (3#1)).


Definition finished_session_world : world :=
  {| fs := (session_dirs
            ++ [("sessions/default/networks", Dir);
                ("sessions/default/networks/default_network_1.pth", File);
                ("sessions/default/networks/default_network_2.pth", File);
                ("sessions/default/networks/backup_network.pth", File);
                ("sessions/default/networks/networks.pth", File)])%list;
     trace := [] |}.

(** The world after the parameters at [path] were loaded by a manager
    named [NetworkManager]. *)
Definition loaded_world (path : string) (w : world) : world :=
  emit (LoadParameters path)
       (emit (Print ("[NetworkManager]: Loading networks from " ++ path ++ ".")) w).

(** A training table in which every field of every line holds [[5]], and
    a loss that does not look at its arguments. *)
Definition example_get_lines (fields : list string) (lines : list Z)
  (db : DatabaseHandler) : result (dict (list ndarray)) :=
  Ok (map (fun f => (f, map (fun _ => {| shape := [1%nat]; data := [5#1]%Q |}) lines))
          fields).

Definition example_compute_loss (pred : dict tensor) (opt : option (dict tensor))
  : dict Q :=
  [("loss", 0#1)%Q].

(** A network like [example_network] that registers no reverse
    normalization target. *)
Definition unregistered_network : Network :=
  {| net_fields := ["input"];
     pred_fields := ["X"];
     pred_norm_fields := [];
     numpy_to_tensor := Tensor;
     tensor_to_numpy := tensor_values;
     predict := fun _ => [("X", Tensor (scalar_output (3#1)))];
     save_parameters := fun path => write_file (path ++ ".pth") |}.

Definition unregistered_manager : NetworkManager :=
  {| name := "NetworkManager";
     database_handler :=
       {| exchange_fields := ["input"; "X"];
          exchange_rows := [(0, [("input", {| shape := [1%nat]; data := [5#1]%Q |})])];
          first_line_id := 0 |};
     session := "sessions/default";
     new_session := true;
     network_dir := "sessions/default/networks/";
     network_template_name := "default_network_{}";
     saved_counter := 0;
     save_every_epoch := 0;
     network := Some unregistered_network;
     is_training := false;
     optimization :=
       {| loss_class := Some "MSELoss"; loss_is_set := true;
          optimizer_is_set := false |};
     data_transformation := example_transformation |}.

(** * Properties *)

(** ** Generic facts about results, lists and dictionaries *)

Lemma bind_Ok {A B : Type} (r : result A) (k : A -> result B) (b : B) :
  bind r k = Ok b -> exists a, r = Ok a /\ k a = Ok b.
Proof.
  destruct r as [a|e]; simpl; intros H; [eauto | discriminate].
Qed.

Ltac bind_inv H :=
  let a := fresh "x" in
  let Ha := fresh "Hx" in
  apply bind_Ok in H; destruct H as (a & Ha & H).

Lemma filter_none {A : Type} (f : A -> bool) (l : list A) :
  (forall x, In x l -> f x = false) -> filter f l = [].
Proof.
  induction l as [|a l IH]; simpl; intros H; [reflexivity|].
  rewrite (H a (or_introl eq_refl)). apply IH. intros x Hx. apply H. now right.
Qed.

Lemma list_index_raises {A : Type} (l : list A) (i : Z) (e : exception) :
  list_index l i = Raise e -> e = IndexError.
Proof.
  unfold list_index.
  destruct (_ || _); [intros H; now inversion H|].
  destruct (nth_error _ _); intros H; [discriminate | now inversion H].
Qed.

Lemma list_index_in_range {A : Type} (l : list A) (i : Z) :
  0 <= i < Z.of_nat (List.length l) -> exists a, list_index l i = Ok a.
Proof.
  intros Hi. unfold list_index.
  destruct (Z.ltb_spec i 0); [lia|].
  destruct (Z.ltb_spec i 0); [lia|].
  destruct (Z.leb_spec (Z.of_nat (List.length l)) i); [lia|]. simpl.
  destruct (nth_error l (Z.to_nat i)) eqn:E; [eauto|].
  apply nth_error_None in E. lia.
Qed.

Lemma nth_error_last {A : Type} (l : list A) (d : A) :
  l <> [] -> nth_error l (List.length l - 1) = Some (List.last l d).
Proof.
  induction l as [|a l IH]; [congruence|]. intros _.
  destruct l as [|b l]; [reflexivity|].
  change (List.last (a :: b :: l) d) with (List.last (b :: l) d).
  rewrite <- IH by congruence. simpl. now rewrite Nat.sub_0_r.
Qed.

Lemma list_index_last {A : Type} (l : list A) (d : A) :
  l <> [] -> list_index l (-1) = Ok (List.last l d).
Proof.
  intros Hl. unfold list_index.
  assert (Hlen : (0 < List.length l)%nat) by (destruct l; simpl; [congruence | lia]).
  change (-1 <? 0) with true. cbv iota.
  destruct (Z.ltb_spec (-1 + Z.of_nat (List.length l)) 0); [lia|].
  destruct (Z.leb_spec (Z.of_nat (List.length l)) (-1 + Z.of_nat (List.length l))); [lia|].
  cbv [orb].
  replace (Z.to_nat (-1 + Z.of_nat (List.length l))) with (List.length l - 1)%nat by lia.
  now rewrite (nth_error_last l d Hl).
Qed.

Lemma listdir_raises (d : string) (f : filesystem) (e : exception) :
  listdir d f = Raise e -> is_OSError e = true.
Proof.
  unfold listdir. destruct (fs_lookup _ _) as [[|]|]; intros H; inversion H; reflexivity.
Qed.

(** ** [load_network] *)

Lemma load_network_raises (i : Z) (m : NetworkManager) (w : world) (e : exception) :
  load_network i m w = Raise e ->
  e = AttributeError \/ e = IndexError \/ is_OSError e = true.
Proof.
  unfold load_network, list_networks, get_network.
  destruct (listdir (network_dir m) (fs w)) as [names|e0] eqn:El; simpl;
    [|intros H; inversion H; subst; right; right; eapply listdir_raises; eauto].
  match goal with
  | |- context [Z.of_nat (List.length ?l)] => generalize l
  end.
  intros l.
  destruct (Z.of_nat (List.length l) =? 0); simpl;
    [intros H; inversion H; auto|].
  match goal with
  | |- context [bind ?r _] => destruct r as [sel|e1] eqn:Es
  end.
  2:{ destruct (_ =? 1); [discriminate|]. destruct (_ >? _); discriminate. }
  simpl. destruct (list_index l (fst sel)) as [path|e2] eqn:Ei; simpl.
  - destruct (network m); simpl; intros H; inversion H; auto.
  - intros H; inversion H; subst. apply list_index_raises in Ei. auto.
Qed.

(** When the index given is beyond the length of the list of saved
    networks, the last one is loaded after a warning. *)
Lemma load_network_beyond_length (i : Z) (m : NetworkManager) (w : world)
  (dir : string) (net : Network) (l : list string) :
  network_dir m = dir ->
  network m = Some net ->
  list_networks dir w = Ok l ->
  (2 <= List.length l)%nat ->
  i > Z.of_nat (List.length l) ->
  exists warning,
    load_network i m w =
    Ok (m, emit (LoadParameters (List.last l ""))
             (emit (Print ("[" ++ name m ++ "]: Loading networks from "
                           ++ List.last l "" ++ "."))
                   (emit (Print warning) w))).
Proof.
  intros Hd Hn Hl Hlen Hi. unfold load_network, get_network.
  rewrite Hd. cbv zeta. rewrite Hl. cbn [bind]. rewrite Hn.
  destruct (Z.eqb_spec (Z.of_nat (List.length l)) 0); [lia|].
  destruct (Z.eqb_spec (Z.of_nat (List.length l)) 1); [lia|].
  destruct (Z.gtb_spec i (Z.of_nat (List.length l))); [|lia].
  cbn [bind fst snd].
  rewrite (list_index_last l "") by (destruct l; simpl in *; [lia | congruence]).
  cbn [bind]. eexists. reflexivity.
Qed.

(** C2: with two saved parameter sets, the out-of-range indices 2 (the
    length of the list) and -3 are not replaced by -1: the load fails with
    [IndexError].  Only an index strictly greater than the length falls
    back to the last snapshot. *)
Theorem load_network_out_of_range_fails :
  load_network 2 (example_manager false 0 (scalar_output 3)) two_snapshots_world
    = Raise IndexError
  /\ load_network (-3) (example_manager false 0 (scalar_output 3)) two_snapshots_world
    = Raise IndexError
  /\ exists w, load_network 3 (example_manager false 0 (scalar_output 3)) two_snapshots_world
    = Ok (example_manager false 0 (scalar_output 3), w)
    /\ List.last (trace w) SetDevice
       = LoadParameters "sessions/default/networks/default_network_2.pth".
Proof.
  split; [vm_compute; reflexivity|].
  split; [vm_compute; reflexivity|].
  eexists. split; vm_compute; reflexivity.
Qed.

(** C6 as stated fails: on an empty network directory the exception is a
    [FileNotFoundError], which is not a [LookupError]. *)
Lemma load_network_empty_not_LookupError :
  ~ (exists e,
        load_network (-1) (example_manager false 0 (scalar_output 3))
                     empty_networks_world = Raise e
        /\ is_LookupError e = true).
Proof.
  intros (e & H & He). vm_compute in H. inversion H; subst. discriminate.
Qed.

(** C6, amended: loading from a network directory that holds no saved
    parameter set (no regular file whose name contains [network_] or
    [networks.]) fails at once with [FileNotFoundError], whatever the
    index asked for. *)
Theorem load_network_empty_directory
  (which_network : Z) (m : NetworkManager) (w : world)
  (dir : string) (names : list string) :
  network_dir m = dir ->
  listdir dir (fs w) = Ok names ->
  (forall f, In f names -> isfile (join dir f) (fs w) = true ->
             contains "network_" f = false /\ contains "networks." f = false) ->
  load_network which_network m w = Raise FileNotFoundError.
Proof.
  intros Hd Hl Hnone. unfold load_network, list_networks.
  rewrite Hd. cbv zeta. rewrite Hl. simpl.
  rewrite !filter_none.
  - reflexivity.
  - intros f Hf. destruct (isfile _ _) eqn:E; [|reflexivity].
    now destruct (Hnone f Hf E) as [_ ->].
  - intros f Hf. destruct (isfile _ _) eqn:E; [|reflexivity].
    now destruct (Hnone f Hf E) as [-> _].
Qed.

Lemma load_network_empty_directory_witness :
  load_network 5 (example_manager false 0 (scalar_output 3)) empty_networks_world
  = Raise FileNotFoundError.
Proof.
  apply (load_network_empty_directory 5 _ _ "sessions/default/networks/" []).
  - reflexivity.
  - reflexivity.
  - intros f [].
Defined.

(** ** [save_network] *)

Lemma do_save_Ok (path : string) (m : NetworkManager) (w w' : world) :
  do_save path m w = Ok w' -> last_event w' = SaveParameters path.
Proof.
  unfold do_save. intros H. bind_inv H. inversion H; subst.
  unfold last_event; simpl. apply last_last.
Qed.

(** What an intermediate save writes: with a cadence [N > 0] the counter is
    incremented, and the numbered snapshot is written when the new counter
    is NOT a multiple of [N], the rolling backup when it is; without
    cadence the rolling backup is written and the counter is left alone. *)
Lemma save_network_intermediate (m m' : NetworkManager) (w w' : world) :
  save_network false m w = Ok (m', w') ->
  exists dir,
    network_dir m = dir /\
    if save_every_epoch m >? 0 then
      m' = set_saved_counter (saved_counter m + 1) m /\
      if (saved_counter m + 1) mod save_every_epoch m =? 0 then
        last_event w' = SaveParameters (join dir "backup_network")
      else
        exists file,
          format (network_template_name m) (str_of_int (saved_counter m + 1))
            = Ok file
          /\ last_event w' = SaveParameters (join dir file)
    else
      m' = m /\ last_event w' = SaveParameters (join dir "backup_network").
Proof.
  unfold save_network. intros H. cbv zeta in H.
  exists (network_dir m). split; [reflexivity|].
  bind_inv H. bind_inv H.
  destruct (save_every_epoch m >? 0).
  - cbn [saved_counter save_every_epoch set_saved_counter network_template_name name] in H.
    destruct (_ =? 0).
    + cbn [negb] in H. bind_inv H. inversion H; subst.
      split; [reflexivity|]. eapply do_save_Ok; eauto.
    + cbn [negb] in H. bind_inv H. bind_inv H. inversion H; subst.
      split; [reflexivity|]. eexists. split; [eauto|]. eapply do_save_Ok; eauto.
  - bind_inv H. inversion H; subst. split; [reflexivity|]. eapply do_save_Ok; eauto.
Qed.

(** After [k] intermediate saves of a session, the counter has advanced by
    [k] when a cadence is configured, and nothing else of the manager has
    changed. *)
Lemma intermediate_saves_counter (k : nat) :
  forall (m m' : NetworkManager) (w w' : world),
    run (intermediate_saves k) (m, w) = Ok (m', w') ->
    m' = if save_every_epoch m >? 0
         then set_saved_counter (saved_counter m + Z.of_nat k) m
         else m.
Proof.
  induction k as [|k IH]; intros m m' w w' H.
  - simpl in H. injection H as Hm Hw. subst m' w'.
    destruct m; unfold set_saved_counter; simpl.
    rewrite Z.add_0_r. now destruct (_ >? 0).
  - simpl in H. bind_inv H. destruct x as [m1 w1]. simpl in Hx.
    apply save_network_intermediate in Hx. destruct Hx as (dir & _ & Hx).
    apply IH in H. subst m'.
    destruct (save_every_epoch m >? 0) eqn:E.
    + destruct Hx as [-> _]. cbn [save_every_epoch set_saved_counter]. rewrite E.
      unfold set_saved_counter; simpl. f_equal. lia.
    + destruct Hx as [-> _]. now rewrite E.
Qed.

(** The [k]-th intermediate save of a session that starts with the counter
    at zero and a cadence [N > 0]: the rolling backup is written when [k]
    is a multiple of [N], the numbered snapshot otherwise. *)
Lemma kth_intermediate_save (k : nat) (m m1 m2 : NetworkManager)
  (w w1 w2 : world) (dir : string) :
  save_every_epoch m > 0 ->
  saved_counter m = 0 ->
  network_dir m = dir ->
  run (intermediate_saves k) (m, w) = Ok (m1, w1) ->
  save_network false m1 w1 = Ok (m2, w2) ->
  if Z.of_nat (S k) mod save_every_epoch m =? 0 then
    last_event w2 = SaveParameters (join dir "backup_network")
  else
    exists file,
      format (network_template_name m) (str_of_int (Z.of_nat (S k))) = Ok file
      /\ last_event w2 = SaveParameters (join dir file).
Proof.
  intros HN Hc Hd Hrun Hsave.
  apply intermediate_saves_counter in Hrun.
  destruct (Z.gtb_spec (save_every_epoch m) 0); [|lia]. subst m1.
  apply save_network_intermediate in Hsave. destruct Hsave as (dir' & Hd' & Hs).
  cbn [network_dir set_saved_counter save_every_epoch saved_counter
       network_template_name] in Hd', Hs.
  rewrite Hd in Hd'. subst dir'.
  destruct (Z.gtb_spec (save_every_epoch m) 0); [|lia].
  destruct Hs as [_ Hs]. rewrite Hc in Hs.
  replace (0 + Z.of_nat k + 1) with (Z.of_nat (S k)) in Hs by lia.
  exact Hs.
Qed.

(** Without cadence ([N <= 0]) an intermediate save writes the rolling
    backup only. *)
Lemma save_network_without_cadence (m m' : NetworkManager) (w w' : world)
  (dir : string) :
  save_every_epoch m <= 0 ->
  network_dir m = dir ->
  save_network false m w = Ok (m', w') ->
  m' = m /\ last_event w' = SaveParameters (join dir "backup_network").
Proof.
  intros HN Hd H. apply save_network_intermediate in H.
  destruct H as (dir' & Hd' & H). rewrite Hd in Hd'. subst dir'.
  destruct (Z.gtb_spec (save_every_epoch m) 0); [lia|]. exact H.
Qed.

(** C1: with the cadence [N = 2], the first intermediate save (1 is not a
    multiple of 2) writes the numbered snapshot [default_network_1], and
    the second one (2 is a multiple of 2) writes the rolling
    [backup_network]; with [N = 1] the first save writes [backup_network]
    although a snapshot is due at every call. *)
Theorem save_network_cadence_is_inverted :
  (exists s, run (intermediate_saves 1)
                 (example_manager true 2 (scalar_output 3), empty_networks_world)
             = Ok s
             /\ last_event (snd s)
                = SaveParameters "sessions/default/networks/default_network_1")
  /\ (exists s, run (intermediate_saves 2)
                    (example_manager true 2 (scalar_output 3), empty_networks_world)
                = Ok s
                /\ last_event (snd s)
                   = SaveParameters "sessions/default/networks/backup_network")
  /\ (exists s, run (intermediate_saves 1)
                    (example_manager true 1 (scalar_output 3), empty_networks_world)
                = Ok s
                /\ last_event (snd s)
                   = SaveParameters "sessions/default/networks/backup_network").
Proof.
  repeat split; eexists; (split; [vm_compute; reflexivity | vm_compute; reflexivity]).
Qed.

(** ** [normalize_data] *)


Lemma normalize_data_unapply (a : ndarray) (mean scale : Q) :
  normalize_data a [mean; scale] true
  = Ok (array_map (fun x => (x * scale + mean)%Q) a).
Proof. reflexivity. Qed.



(** In binary64 the scenario of the specification is exact as well:
    unapplying (mean 1, scale 2) to [[3]] gives [[7]]. *)
Lemma normalize_data64_scenario :
  normalize_data64 {| shape64 := [1%nat]; data64 := [3%float] |}
                   [1%float; 2%float] true
  = Ok {| shape64 := [1%nat]; data64 := [7%float] |}.
Proof. vm_compute. reflexivity. Qed.




(** ** Dictionaries and Exchange rows *)

Lemma dict_mapM_get {V W : Type} (f : string -> V -> result W) (k : string) :
  forall (d : dict V) (d' : dict W),
    dict_mapM f d = Ok d' ->
    match dict_get k d with
    | Some v => exists w, f k v = Ok w /\ dict_get k d' = Some w
    | None => dict_get k d' = None
    end.
Proof.
  unfold dict_mapM.
  induction d as [|[k0 v0] d IH]; intros d' H; simpl in H.
  - inversion H; subst. reflexivity.
  - bind_inv H. bind_inv Hx. inversion Hx; subst x. clear Hx.
    bind_inv H. inversion H; subst d'. clear H.
    simpl. destruct (String.eqb_spec k k0) as [->|Hne].
    + eauto.
    + apply IH. exact Hx.
Qed.

Lemma dict_get_map_values {V : Type} (g : string -> V -> V) (k : string) (r : dict V) :
  dict_get k (map (fun e => (fst e, g (fst e) (snd e))) r)
  = option_map (g k) (dict_get k r).
Proof.
  induction r as [|[k0 v0] r IH]; simpl; [reflexivity|].
  destruct (String.eqb_spec k k0) as [->|Hne]; [reflexivity | exact IH].
Qed.

Lemma dict_get_app {V : Type} (k : string) (a b : dict V) :
  dict_get k (a ++ b)%list
  = match dict_get k a with
    | Some v => Some v
    | None => dict_get k b
    end.
Proof.
  induction a as [|[k0 v0] a IH]; simpl; [reflexivity|].
  destruct (String.eqb k k0); [reflexivity | exact IH].
Qed.

Lemma dict_get_filter_keys {V : Type} (p : string -> bool) (k : string) (d : dict V) :
  p k = true ->
  dict_get k (filter (fun e => p (fst e)) d) = dict_get k d.
Proof.
  intros Hp. induction d as [|[k0 v0] d IH]; simpl; [reflexivity|].
  destruct (String.eqb_spec k k0) as [->|Hne].
  - rewrite Hp. simpl. now rewrite String.eqb_refl.
  - destruct (p k0); simpl; [|exact IH].
    destruct (String.eqb_spec k k0); [contradiction | exact IH].
Qed.

(** A read of the updated row gives the payload's value for the fields of
    the payload and the former value for every other field. *)
Lemma dict_get_update_row (k : string) (d r : dict ndarray) :
  dict_get k (update_row d r)
  = match dict_get k d with
    | Some v => Some v
    | None => dict_get k r
    end.
Proof.
  unfold update_row. rewrite dict_get_app.
  rewrite (dict_get_map_values
             (fun key old => match dict_get key d with
                             | Some v => v
                             | None => old
                             end)).
  destruct (dict_get k r) as [old|] eqn:Er; simpl.
  - destruct (dict_get k d); reflexivity.
  - rewrite (dict_get_filter_keys (fun key => negb (dict_mem key r))).
    + destruct (dict_get k d); reflexivity.
    + unfold dict_mem. now rewrite Er.
Qed.

Lemma find_row_update_rows (i j : Z) (d : dict ndarray)
  (rows : list (Z * dict ndarray)) :
  find_row j (update_rows i d rows)
  = if j =? i then option_map (update_row d) (find_row j rows)
    else find_row j rows.
Proof.
  induction rows as [|[i0 r0] rows IH]; simpl.
  - now destruct (j =? i).
  - destruct (Z.eqb_spec i0 i) as [->|Hne]; simpl.
    + destruct (Z.eqb_spec i j) as [->|Hne'].
      * now rewrite Z.eqb_refl.
      * destruct (Z.eqb_spec j i); [congruence | reflexivity].
    + destruct (Z.eqb_spec i0 j) as [->|Hne'].
      * destruct (Z.eqb_spec j i); [congruence | reflexivity].
      * exact IH.
Qed.

Lemma update_rows_length (i : Z) (d : dict ndarray) (rows : list (Z * dict ndarray)) :
  List.length (update_rows i d rows) = List.length rows.
Proof.
  induction rows as [|[i0 r0] rows IH]; simpl; [reflexivity|].
  destruct (i0 =? i); simpl; [reflexivity | now rewrite IH].
Qed.

(** ** [compute_online_prediction] *)

(** A successful call is an [update] of the row of the instance with the
    post-processed prediction. *)
Lemma compute_online_prediction_Ok (i : Z) (norm : option (dict (list Q)))
  (m m' : NetworkManager) :
  compute_online_prediction i norm m = Ok m' ->
  exists net sample data_pred db,
    network m = Some net
    /\ prepared_sample i (or_empty norm) m = Ok sample
    /\ dict_mapM (finish_field net (or_empty norm)) (predict_sample m net sample)
       = Ok data_pred
    /\ update data_pred i (database_handler m) = Ok db
    /\ m' = set_database_handler db m.
Proof.
  unfold compute_online_prediction, get_network. intros H.
  destruct (network m) as [net|]; [|discriminate]. cbn [bind] in H.
  bind_inv H. bind_inv H. bind_inv H. inversion H; subst.
  exists net, x, x0, x1. auto.
Qed.

Lemma update_Ok (d : dict ndarray) (i : Z) (db db' : DatabaseHandler) :
  update d i db = Ok db' ->
  exists r,
    find_row i (exchange_rows db) = Some r
    /\ exchange_rows db' = update_rows i d (exchange_rows db)
    /\ exchange_fields db' = exchange_fields db.
Proof.
  unfold update. destruct (find_row i (exchange_rows db)) as [r|]; [|discriminate].
  destruct (registered db d); [|discriminate].
  intros H; inversion H; subst. exists r. auto.
Qed.

(** Reading any row after a successful online prediction: the row of the
    instance holds the post-processed value for each predicted field and
    its former value for every other field; the other rows are as they
    were. *)
Lemma online_prediction_rows (i : Z) (norm : option (dict (list Q)))
  (m m' : NetworkManager) :
  compute_online_prediction i norm m = Ok m' ->
  exists net sample data_pred r,
    network m = Some net
    /\ prepared_sample i (or_empty norm) m = Ok sample
    /\ dict_mapM (finish_field net (or_empty norm)) (predict_sample m net sample)
       = Ok data_pred
    /\ find_row i (exchange_rows (database_handler m)) = Some r
    /\ find_row i (exchange_rows (database_handler m')) = Some (update_row data_pred r)
    /\ (forall j, j <> i ->
                  find_row j (exchange_rows (database_handler m'))
                  = find_row j (exchange_rows (database_handler m))).
Proof.
  intros H. apply compute_online_prediction_Ok in H.
  destruct H as (net & sample & data_pred & db & Hn & Hs & Hp & Hu & ->).
  apply update_Ok in Hu. destruct Hu as (r & Hr & Hrows & _).
  exists net, sample, data_pred, r. repeat split; auto.
  - cbn [database_handler set_database_handler]. rewrite Hrows.
    rewrite find_row_update_rows, Z.eqb_refl, Hr. reflexivity.
  - intros j Hj. cbn [database_handler set_database_handler]. rewrite Hrows.
    rewrite find_row_update_rows. destruct (Z.eqb_spec j i); [contradiction | reflexivity].
Qed.

(** Fields that are not in the prediction payload keep their value. *)
Lemma online_prediction_other_fields (i : Z) (norm : option (dict (list Q)))
  (m m' : NetworkManager) (net : Network) (sample : dict tensor)
  (r r' : dict ndarray) (field : string) :
  compute_online_prediction i norm m = Ok m' ->
  network m = Some net ->
  prepared_sample i (or_empty norm) m = Ok sample ->
  dict_get field (predict_sample m net sample) = None ->
  find_row i (exchange_rows (database_handler m)) = Some r ->
  find_row i (exchange_rows (database_handler m')) = Some r' ->
  dict_get field r' = dict_get field r.
Proof.
  intros H Hn Hs Hf Hr Hr'. apply online_prediction_rows in H.
  destruct H as (net0 & sample0 & data_pred & r0 & Hn0 & Hs0 & Hp & Hr0 & Hr0' & _).
  rewrite Hn in Hn0. inversion Hn0; subst net0.
  rewrite Hs in Hs0. inversion Hs0; subst sample0.
  rewrite Hr in Hr0. inversion Hr0; subst r0.
  rewrite Hr' in Hr0'. inversion Hr0'; subst r'.
  rewrite dict_get_update_row.
  pose proof (dict_mapM_get _ field _ _ Hp) as Hg. rewrite Hf in Hg.
  now rewrite Hg.
Qed.

Lemma prepared_sample_row (i : Z) (norm : dict (list Q)) (m : NetworkManager)
  (sample : dict tensor) :
  prepared_sample i norm m = Ok sample ->
  exists r, find_row i (exchange_rows (database_handler m)) = Some r.
Proof.
  unfold prepared_sample, get_line. intros H. bind_inv H. bind_inv H.
  destruct (find_row i _) as [r|]; [eauto | discriminate].
Qed.

(** A prediction made of the single field [X], registered in the Exchange
    table, is always written back: the call succeeds and the row holds the
    converted entry, scaled and shifted by the coefficients of its
    reverse-normalization target. *)
Lemma online_prediction_single_field (i : Z) (norm : dict (list Q))
  (m : NetworkManager) (net : Network) (sample : dict tensor)
  (X target : string) (t t0 : tensor) (mean scale : Q) :
  network m = Some net ->
  prepared_sample i norm m = Ok sample ->
  predict_sample m net sample = [(X, t)] ->
  tensor_get0 t = Ok t0 ->
  dict_get X (pred_norm_fields net) = Some target ->
  dict_get target norm = Some [mean; scale] ->
  existsb (String.eqb X) (exchange_fields (database_handler m)) = true ->
  exists m' row,
    compute_online_prediction i (Some norm) m = Ok m'
    /\ find_row i (exchange_rows (database_handler m')) = Some row
    /\ dict_get X row
       = Some (array_map (fun x => (x * scale + mean)%Q) (tensor_to_numpy net t0)).
Proof.
  intros Hn Hs Hp Ht0 Htarget Hnorm Hreg.
  destruct (prepared_sample_row _ _ _ _ Hs) as (r & Hr).
  unfold compute_online_prediction, get_network. rewrite Hn.
  cbn [or_empty bind]. rewrite Hs. cbn [bind]. rewrite Hp.
  unfold dict_mapM. cbn [mapM fst snd]. unfold finish_field, dict_item, dict_mem.
  rewrite Ht0, Htarget. cbn [bind]. rewrite Hnorm. cbn [bind].
  rewrite normalize_data_unapply. cbn [bind].
  unfold update. rewrite Hr. unfold registered.
  cbn [dict_keys map fst forallb]. rewrite Hreg. cbn [andb].
  eexists. eexists. split; [reflexivity|].
  cbn [database_handler set_database_handler exchange_rows].
  rewrite find_row_update_rows, Z.eqb_refl, Hr. cbn [option_map].
  split; [reflexivity|].
  rewrite dict_get_update_row. cbn [dict_get]. now rewrite String.eqb_refl.
Qed.

(** C3: when the entry of the prediction for the field [X] is, once its
    batch axis is dropped and it is converted back, the array [[3]], and
    the reverse-normalization target registered for [X] has the
    coefficients (mean 1, scale 2), the Exchange row of the instance holds
    [[3*2+1] = [7]] for [X] after the call. *)
Theorem online_prediction_reverse_normalization
  (i : Z) (norm : dict (list Q)) (m m' : NetworkManager) (net : Network)
  (sample : dict tensor) (X target : string) (t t0 : tensor) :
  network m = Some net ->
  prepared_sample i norm m = Ok sample ->
  dict_get X (predict_sample m net sample) = Some t ->
  tensor_get0 t = Ok t0 ->
  tensor_to_numpy net t0 = {| shape := [1%nat]; data := [3#1]%Q |} ->
  dict_get X (pred_norm_fields net) = Some target ->
  dict_get target norm = Some [1#1; 2#1]%Q ->
  compute_online_prediction i (Some norm) m = Ok m' ->
  exists row,
    find_row i (exchange_rows (database_handler m')) = Some row
    /\ dict_get X row = Some {| shape := [1%nat]; data := [7#1]%Q |}.
Proof.
  intros Hn Hs Ht Ht0 Hnp Htarget Hnorm H.
  apply online_prediction_rows in H.
  destruct H as (net0 & sample0 & data_pred & r & Hn0 & Hs0 & Hp & _ & Hr' & _).
  rewrite Hn in Hn0. inversion Hn0; subst net0.
  cbn [or_empty] in Hs0, Hp.
  rewrite Hs in Hs0. inversion Hs0; subst sample0.
  exists (update_row data_pred r). split; [exact Hr'|].
  rewrite dict_get_update_row.
  pose proof (dict_mapM_get _ X _ _ Hp) as Hg. rewrite Ht in Hg.
  destruct Hg as (a & Ha & ->).
  unfold finish_field, dict_item, dict_mem in Ha.
  rewrite Ht0, Htarget in Ha. cbn [bind] in Ha.
  rewrite Hnorm in Ha. cbn [bind] in Ha.
  rewrite Hnp, normalize_data_unapply in Ha. cbn [bind] in Ha.
  inversion Ha; subst a. reflexivity.
Qed.

Lemma online_prediction_reverse_normalization_witness :
  exists m',
    compute_online_prediction 0 (Some [("ground_truth", [1#1; 2#1]%Q)])
      (example_exchange_manager (scalar_output (3#1))) = Ok m'
    /\ exists row,
        find_row 0 (exchange_rows (database_handler m')) = Some row
        /\ dict_get "X" row = Some {| shape := [1%nat]; data := [7#1]%Q |}.
Proof.
  eexists. split; [vm_compute; reflexivity|].
  eapply (online_prediction_reverse_normalization
            0 [("ground_truth", [1#1; 2#1]%Q)]
            (example_exchange_manager (scalar_output (3#1))) _
            (example_network (scalar_output (3#1)))
            [("input", Tensor {| shape := [1%nat; 1%nat]; data := [5#1]%Q |})]
            "X" "ground_truth"
            (Tensor (scalar_output (3#1)))
            (Tensor {| shape := [1%nat]; data := [3#1]%Q |})).
  - reflexivity.
  - vm_compute; reflexivity.
  - reflexivity.
  - reflexivity.
  - reflexivity.
  - reflexivity.
  - reflexivity.
  - vm_compute; reflexivity.
Defined.

(** C4: a prediction whose entry for [X] is a 2x2 grid (batch shape
    [(1, 2, 2)]) is written back with the shape [(2, 2)]: the result of
    [reshape(-1)] is dropped, so the array is not flattened to the
    one-dimensional [(4,)].  The field [input], which is not in the
    prediction, keeps its value. *)
Theorem online_prediction_is_not_flattened :
  exists m' row,
    compute_online_prediction 0 None
      (example_exchange_manager grid_output) = Ok m'
    /\ find_row 0 (exchange_rows (database_handler m')) = Some row
    /\ dict_get "X" row
       = Some {| shape := [2%nat; 2%nat]; data := [1#1; 2#1; 3#1; 4#1]%Q |}
    /\ dict_get "X" row
       <> Some (reshape_flat
                  {| shape := [2%nat; 2%nat]; data := [1#1; 2#1; 3#1; 4#1]%Q |})
    /\ dict_get "input" row = Some {| shape := [1%nat]; data := [5#1]%Q |}.
Proof.
  eexists. eexists.
  split; [vm_compute; reflexivity|].
  split; [vm_compute; reflexivity|].
  split; [vm_compute; reflexivity|].
  split; [vm_compute; discriminate|].
  vm_compute; reflexivity.
Qed.

(** ** What the calls of a session leave unchanged *)

Lemma same_configuration_refl (m : NetworkManager) : same_configuration m m.
Proof. repeat split. Qed.

Lemma same_configuration_trans (m1 m2 m3 : NetworkManager) :
  same_configuration m1 m2 -> same_configuration m2 m3 -> same_configuration m1 m3.
Proof.
  unfold same_configuration.
  intros (A1 & A2 & A3 & A4 & A5 & A6) (B1 & B2 & B3 & B4 & B5 & B6).
  repeat split; congruence.
Qed.

Lemma load_network_Ok (i : Z) (m m' : NetworkManager) (w w' : world) :
  load_network i m w = Ok (m', w') -> m' = m /\ fs w' = fs w.
Proof.
  unfold load_network. intros H. cbv zeta in H.
  bind_inv H. bind_inv H. bind_inv H. bind_inv H.
  inversion H; subst. split; [reflexivity|]. cbn [fs emit].
  destruct (_ =? 0); [discriminate|].
  destruct (_ =? 1); [inversion Hx0; reflexivity|].
  destruct (_ >? _); inversion Hx0; reflexivity.
Qed.

Lemma save_network_final (m m' : NetworkManager) (w w' : world) :
  save_network true m w = Ok (m', w') ->
  exists dir net,
    network_dir m = dir /\ network m = Some net /\ m' = m
    /\ fs w' = save_parameters net (join dir "networks") (fs w)
    /\ trace w' = (trace w
                   ++ [Print ("[" ++ name m ++ "] Saving final networks at "
                              ++ dir ++ ".");
                       SaveParameters (join dir "networks")])%list.
Proof.
  unfold save_network, do_save, get_network. intros H.
  destruct (network m) as [net|]; [|discriminate].
  cbn in H. injection H as Hm Hw. subst m' w'. exists (network_dir m), net.
  repeat split. cbn. now rewrite <- app_assoc.
Qed.

Lemma save_network_same_handler (b : bool) (m m' : NetworkManager) (w w' : world) :
  save_network b m w = Ok (m', w') ->
  same_configuration m m' /\ database_handler m' = database_handler m.
Proof.
  destruct b; intros H.
  - apply save_network_final in H. destruct H as (dir & net & _ & _ & -> & _).
    split; [apply same_configuration_refl | reflexivity].
  - apply save_network_intermediate in H. destruct H as (dir & _ & H).
    destruct (save_every_epoch m >? 0).
    + destruct H as [-> _]. split; [repeat split | reflexivity].
    + destruct H as [-> _]. split; [apply same_configuration_refl | reflexivity].
Qed.

Lemma link_clients_same_configuration (n : option Z) (m m' : NetworkManager) :
  link_clients n m = Ok m' -> same_configuration m m'.
Proof.
  unfold link_clients. destruct n as [n|]; intros H.
  - bind_inv H. bind_inv H. bind_inv H. inversion H; subst. repeat split.
  - inversion H; subst. apply same_configuration_refl.
Qed.

Lemma online_prediction_same_configuration (i : Z) (norm : option (dict (list Q)))
  (m m' : NetworkManager) :
  compute_online_prediction i norm m = Ok m' ->
  same_configuration m m'
  /\ row_count (database_handler m') = row_count (database_handler m).
Proof.
  intros H. apply compute_online_prediction_Ok in H.
  destruct H as (net & sample & data_pred & db & _ & _ & _ & Hu & ->).
  split; [repeat split|].
  apply update_Ok in Hu. destruct Hu as (r & _ & Hrows & _).
  unfold row_count. cbn [database_handler set_database_handler].
  rewrite Hrows. apply update_rows_length.
Qed.

Lemma step_same_configuration (c : call) (m m' : NetworkManager) (w w' : world) :
  step c (m, w) = Ok (m', w') -> same_configuration m m'.
Proof.
  destruct c; simpl; intros H.
  - bind_inv H. inversion H; subst. eapply link_clients_same_configuration; eauto.
  - apply load_network_Ok in H. destruct H as [-> _]. apply same_configuration_refl.
  - apply save_network_same_handler in H. tauto.
  - bind_inv H. inversion H; subst.
    apply online_prediction_same_configuration in Hx. tauto.
Qed.

Lemma step_row_count (c : call) (m m' : NetworkManager) (w w' : world) :
  is_link_clients c = false ->
  step c (m, w) = Ok (m', w') ->
  row_count (database_handler m') = row_count (database_handler m).
Proof.
  destruct c; simpl; intros Hc H; [discriminate| | |].
  - apply load_network_Ok in H. now destruct H as [-> _].
  - apply save_network_same_handler in H. destruct H as [_ H]. now rewrite H.
  - bind_inv H. inversion H; subst.
    apply online_prediction_same_configuration in Hx. tauto.
Qed.

Lemma run_same_configuration (calls : list call) :
  forall (m m' : NetworkManager) (w w' : world),
    run calls (m, w) = Ok (m', w') -> same_configuration m m'.
Proof.
  induction calls as [|c calls IH]; intros m m' w w' H; simpl in H.
  - inversion H; subst. apply same_configuration_refl.
  - bind_inv H. destruct x as [m1 w1].
    eapply same_configuration_trans.
    + eapply step_same_configuration; eauto.
    + eapply IH; eauto.
Qed.

Lemma run_row_count (calls : list call) :
  forall (m m' : NetworkManager) (w w' : world),
    forallb (fun c => negb (is_link_clients c)) calls = true ->
    run calls (m, w) = Ok (m', w') ->
    row_count (database_handler m') = row_count (database_handler m).
Proof.
  induction calls as [|c calls IH]; intros m m' w w' Hc H; simpl in H.
  - now inversion H.
  - simpl in Hc. apply andb_prop in Hc. destruct Hc as [Hc Hcs].
    bind_inv H. destruct x as [m1 w1].
    rewrite (IH _ _ _ _ Hcs H).
    eapply step_row_count; eauto. now destruct (is_link_clients c).
Qed.

(** ** [link_clients] *)

Lemma add_empty_lines_Ok (n : nat) :
  forall db : DatabaseHandler,
    exists db',
      add_empty_lines n db = Ok db'
      /\ row_count db' = (row_count db + n)%nat
      /\ exchange_fields db' = exchange_fields db
      /\ (forall i r, In (i, r) (exchange_rows db') ->
                      In (i, r) (exchange_rows db) \/ r = []).
Proof.
  induction n as [|n IH]; intros db.
  - exists db. simpl. repeat split; auto; unfold row_count; lia.
  - cbn [add_empty_lines]. unfold add_data.
    cbn [registered dict_keys map forallb bind fst].
    match goal with
    | |- context [add_empty_lines n ?d] => destruct (IH d) as (db' & H & Hc & Hf & Hr)
    end.
    exists db'. split; [exact H|].
    split; [rewrite Hc; unfold row_count; simpl; rewrite length_app; simpl; lia|].
    split; [exact Hf|].
    intros i r Hin. destruct (Hr i r Hin) as [Hin'|]; [|now right].
    simpl in Hin'. apply in_app_or in Hin'. destruct Hin' as [|[Heq|[]]]; [now left|].
    inversion Heq. now right.
Qed.

(** C8: linking [n] clients to a manager whose Exchange table has no row
    yet registers the network fields and leaves exactly [n] rows, all
    empty; the calls that follow in the session (loads, saves, online
    predictions) never change that number. *)
Theorem link_clients_row_count (n : Z) (m : NetworkManager) (net : Network) :
  0 <= n ->
  network m = Some net ->
  exchange_rows (database_handler m) = [] ->
  exists m',
    link_clients (Some n) m = Ok m'
    /\ Z.of_nat (row_count (database_handler m')) = n
    /\ exchange_fields (database_handler m')
       = (exchange_fields (database_handler m) ++ net_fields net ++ pred_fields net)%list
    /\ (forall i r, In (i, r) (exchange_rows (database_handler m')) -> r = [])
    /\ forall calls w m'' w'',
         forallb (fun c => negb (is_link_clients c)) calls = true ->
         run calls (m', w) = Ok (m'', w'') ->
         Z.of_nat (row_count (database_handler m'')) = n.
Proof.
  intros Hn Hnet Hrows. unfold link_clients, get_network, create_fields.
  rewrite Hnet, Hrows. cbn [bind].
  match goal with
  | |- context [add_empty_lines _ ?d] =>
      destruct (add_empty_lines_Ok (Z.to_nat n) d) as (db' & H & Hc & Hf & Hr)
  end.
  rewrite H. cbn [bind]. eexists. split; [reflexivity|].
  cbn [database_handler set_database_handler].
  assert (Hcount : Z.of_nat (row_count db') = n)
    by (rewrite Hc; unfold row_count; simpl; lia).
  split; [exact Hcount|].
  split; [exact Hf|].
  split.
  - intros i r Hin. destruct (Hr i r Hin) as [[]|]; assumption.
  - intros calls w m'' w'' Hcalls Hrun.
    rewrite (run_row_count _ _ _ _ _ Hcalls Hrun).
    exact Hcount.
Qed.

Lemma link_clients_row_count_witness :
  exists m',
    link_clients (Some 3) (example_manager true 0 (scalar_output (3#1))) = Ok m'
    /\ Z.of_nat (row_count (database_handler m')) = 3.
Proof.
  destruct (link_clients_row_count 3 (example_manager true 0 (scalar_output (3#1)))
              (example_network (scalar_output (3#1))))
    as (m' & H & Hc & _).
  - lia.
  - reflexivity.
  - reflexivity.
  - exists m'. split; assumption.
Defined.

(** ** [__init__] and [close] *)

Section ConstructionFacts.

Variable copy_dir : string -> string -> string -> filesystem -> string * filesystem.
Variable create_dir : string -> string -> filesystem -> string * filesystem.
Variable line_id_base : Z.

(** A manager that was constructed has its network, its directory, and
    [is_training] set from the pipeline. *)
Lemma init_Ok (cfg : NetworkConfig) (pipeline session_ : string)
  (new_session_ : bool) (w w' : world) (m : NetworkManager) :
  init copy_dir create_dir line_id_base cfg pipeline session_ new_session_ w
  = Ok (m, w') ->
  is_training m = String.eqb pipeline "training"
  /\ network m = Some (create_network cfg)
  /\ saved_counter m = 0
  /\ save_every_epoch m = cfg_save_every_epoch cfg
  /\ (is_training m = false -> network_dir m = join session_ "networks/").
Proof.
  unfold init. intros H.
  destruct (String.eqb pipeline "training" && negb (training_stuff cfg));
    [discriminate|].
  destruct (String.eqb pipeline "training") eqn:Ep.
  - assert (Hcreate : forall f o,
              (let '(dir, fs') := create_dir session_ "networks" f in
               Ok (mk_manager "NetworkManager" (new_database_handler line_id_base)
                     session_ new_session_ dir
                     (split_last sep session_ ++ "_network_{}") 0
                     (cfg_save_every_epoch cfg) (Some (create_network cfg)) true o
                     (create_data_transformation cfg),
                   {| fs := fs'; trace := trace (emit SetTrain (emit SetDevice w)) |}))
              = Ok (m, w') ->
              is_training m = true /\ network m = Some (create_network cfg)
              /\ saved_counter m = 0
              /\ save_every_epoch m = cfg_save_every_epoch cfg
              /\ (is_training m = false -> network_dir m = join session_ "networks/")).
    { intros f o. destruct (create_dir session_ "networks" f) as [dir fs'].
      intros E; inversion E; subst. cbn. repeat split; eauto. discriminate. }
    destruct (cfg_network_dir cfg) as [src|]; [|eapply Hcreate; exact H].
    destruct (new_session_ && isdir src _); [|eapply Hcreate; exact H].
    destruct (copy_dir src session_ "networks" _) as [dir fs'].
    apply load_network_Ok in H. destruct H as [-> _]. cbn.
    repeat split; eauto. discriminate.
  - apply load_network_Ok in H. destruct H as [-> _]. cbn.
    repeat split; eauto.
Qed.

End ConstructionFacts.

Lemma save_network_final_Ok (m : NetworkManager) (w : world)
  (dir : string) (net : Network) :
  network_dir m = dir ->
  network m = Some net ->
  save_network true m w
  = Ok (m, {| fs := save_parameters net (join dir "networks") (fs w);
              trace := (trace w
                        ++ [Print ("[" ++ name m ++ "] Saving final networks at "
                                   ++ dir ++ ".");
                            SaveParameters (join dir "networks")])%list |}).
Proof.
  intros Hd Hn. unfold save_network, do_save, get_network.
  rewrite Hd, Hn. cbn. now rewrite <- app_assoc.
Qed.

(** C7: constructing a manager for the pipeline [training] from a
    configuration that lacks a loss or an optimizer raises [ValueError];
    for any other pipeline the constructor never raises [ValueError]. *)
Theorem init_training_requires_loss_and_optimizer
  (copy_dir : string -> string -> string -> filesystem -> string * filesystem)
  (create_dir : string -> string -> filesystem -> string * filesystem)
  (line_id_base : Z) (cfg : NetworkConfig) (pipeline session_ : string)
  (new_session_ : bool) (w : world) :
  (pipeline = "training" ->
   cfg_loss cfg = None \/ cfg_optimizer cfg = None ->
   init copy_dir create_dir line_id_base cfg pipeline session_ new_session_ w
   = Raise ValueError)
  /\ (pipeline <> "training" ->
      init copy_dir create_dir line_id_base cfg pipeline session_ new_session_ w
      <> Raise ValueError).
Proof.
  split.
  - intros -> Hmissing. unfold init.
    assert (Hts : training_stuff cfg = false).
    { unfold training_stuff. destruct Hmissing as [-> | ->]; [reflexivity|].
      now destruct (cfg_loss cfg). }
    rewrite Hts. reflexivity.
  - intros Hp. unfold init.
    destruct (String.eqb_spec pipeline "training") as [|_]; [contradiction|].
    cbn [andb]. intros H. apply load_network_raises in H.
    destruct H as [H|[H|H]]; discriminate.
Qed.

Lemma init_training_requires_loss_and_optimizer_witness :
  init example_copy_dir example_create_dir 0
       (example_config None (Some "Adam") 0 (scalar_output (3#1)))
       "training" "sessions/default" true
       {| fs := session_dirs; trace := [] |}
  = Raise ValueError
  /\ init example_copy_dir example_create_dir 0
          (example_config None (Some "Adam") 0 (scalar_output (3#1)))
          "prediction" "sessions/default" true two_snapshots_world
     <> Raise ValueError.
Proof.
  split.
  - apply (init_training_requires_loss_and_optimizer
             example_copy_dir example_create_dir 0
             (example_config None (Some "Adam") 0 (scalar_output (3#1)))
             "training" "sessions/default" true
             {| fs := session_dirs; trace := [] |}).
    + reflexivity.
    + left. reflexivity.
  - apply (init_training_requires_loss_and_optimizer
             example_copy_dir example_create_dir 0
             (example_config None (Some "Adam") 0 (scalar_output (3#1)))
             "prediction" "sessions/default" true two_snapshots_world).
    discriminate.
Defined.

(** C10: for a manager that was constructed and then used in a session,
    [close] saves the parameters under [networks] in the network directory
    when the pipeline of the construction was [training], and leaves the
    world as it is (no save, no file written) for any other pipeline. *)
Theorem close_saves_iff_training
  (copy_dir : string -> string -> string -> filesystem -> string * filesystem)
  (create_dir : string -> string -> filesystem -> string * filesystem)
  (line_id_base : Z) (cfg : NetworkConfig) (pipeline session_ : string)
  (new_session_ : bool) (w0 w1 w : world) (m0 m : NetworkManager)
  (calls : list call) :
  init copy_dir create_dir line_id_base cfg pipeline session_ new_session_ w0
  = Ok (m0, w1) ->
  run calls (m0, w1) = Ok (m, w) ->
  (pipeline = "training" ->
   exists dir,
     network_dir m = dir
     /\ close m w
        = Ok (del_network m,
              {| fs := save_parameters (create_network cfg) (join dir "networks") (fs w);
                 trace := (trace w
                           ++ [Print ("[" ++ name m ++ "] Saving final networks at "
                                      ++ dir ++ ".");
                               SaveParameters (join dir "networks")])%list |}))
  /\ (pipeline <> "training" -> close m w = Ok (del_network m, w)).
Proof.
  intros Hinit Hrun.
  apply init_Ok in Hinit.
  destruct Hinit as (Htr & Hnet & _).
  apply run_same_configuration in Hrun.
  destruct Hrun as (_ & _ & _ & _ & Hn & Ht).
  rewrite Hnet in Hn. rewrite Htr in Ht.
  split.
  - intros ->. exists (network_dir m). split; [reflexivity|].
    unfold close. rewrite Ht. cbn [String.eqb Ascii.eqb Bool.eqb].
    rewrite (save_network_final_Ok m w (network_dir m) (create_network cfg) eq_refl Hn).
    cbn [bind fst snd]. unfold get_network. rewrite Hn. reflexivity.
  - intros Hp. unfold close. rewrite Ht.
    destruct (String.eqb_spec pipeline "training") as [|_]; [contradiction|].
    cbn [bind fst snd]. unfold get_network. rewrite Hn. reflexivity.
Qed.

Lemma close_saves_iff_training_witness :
  exists m w,
    init example_copy_dir example_create_dir 0
         (example_config (Some "MSELoss") (Some "Adam") 0 (scalar_output (3#1)))
         "training" "sessions/default" true
         {| fs := session_dirs; trace := [] |} = Ok (m, w)
    /\ exists w',
         close m w = Ok (del_network m, w')
         /\ last_event w' = SaveParameters "sessions/default/networks/networks"
         /\ fs w' = (fs w ++ [("sessions/default/networks/networks.pth", File)])%list.
Proof.
  eexists. eexists. split; [vm_compute; reflexivity|].
  match goal with
  | |- exists w', close ?m ?w = _ /\ _ =>
      destruct (close_saves_iff_training
                  example_copy_dir example_create_dir 0
                  (example_config (Some "MSELoss") (Some "Adam") 0 (scalar_output (3#1)))
                  "training" "sessions/default" true
                  {| fs := session_dirs; trace := [] |} w w m m [])
        as [Htrain _]
  end.
  - vm_compute; reflexivity.
  - reflexivity.
  - destruct (Htrain eq_refl) as (dir & Hd & Hclose).
    vm_compute in Hd. subst dir.
    eexists. split; [exact Hclose|].
    split; vm_compute; reflexivity.
Defined.

(** ** The worker launcher *)

Lemma list_index_head {A : Type} (a : A) (l : list A) :
  list_index (a :: l) 0 = Ok a.
Proof.
  unfold list_index. change (0 <? 0) with false. cbv iota.
  destruct (Z.leb_spec (Z.of_nat (List.length (a :: l))) 0) as [H|H].
  - simpl List.length in H. lia.
  - reflexivity.
Qed.

Lemma launch_never_exits (import_environment : string -> string -> result unit)
  (run_client : TcpIpClient -> result unit) (argv : list string)
  (printed : string) (status : Z) :
  launch import_environment run_client argv <> Exit printed status.
Proof.
  unfold launch.
  repeat match goal with
         | |- context [bind ?r _] =>
             destruct r; cbn [bind]; try discriminate
         | |- context [if ?b then _ else _] =>
             destruct b; cbn [bind]; try discriminate
         end.
Qed.

(** C9: the script takes six positional arguments after its own name.
    With any other number it prints the usage message and exits with
    status 1.  With six it goes on to the launch: it never takes the usage
    exit, and, the environment import succeeding and the port, the
    instance id and the instance count being integers, it runs a client
    built from the third to sixth arguments and the environment named by
    the first two. *)
Theorem launcher_checks_argument_count
  (import_environment : string -> string -> result unit)
  (run_client : TcpIpClient -> result unit)
  (script : string) (args : list string) :
  (List.length args <> 6%nat ->
   main import_environment run_client (script :: args) = Exit (usage script) 1)
  /\ (List.length args = 6%nat ->
      main import_environment run_client (script :: args)
      = launch import_environment run_client (script :: args)
      /\ forall printed status,
           main import_environment run_client (script :: args) <> Exit printed status)
  /\ (forall a1 a2 a3 a4 a5 a6 p i n,
        args = [a1; a2; a3; a4; a5; a6] ->
        import_environment (drop_last3 (split_last sep a1)) a2 = Ok tt ->
        int_of_str a4 = Ok p ->
        int_of_str a5 = Ok i ->
        int_of_str a6 = Ok n ->
        main import_environment run_client (script :: args)
        = let client := {| environment := (drop_last3 (split_last sep a1), a2);
                           ip_address := a3; port := p;
                           instance_id := i; instance_nb := n |} in
          match run_client client with
          | Ok _ => Launched client
                      ("[launcherSofaEnvironment] Shutting down client " ++ a3)
          | Raise e => Uncaught e
          end).
Proof.
  assert (Hmain : List.length args = 6%nat ->
                  main import_environment run_client (script :: args)
                  = launch import_environment run_client (script :: args)).
  { intros H. unfold main. cbn [List.length]. rewrite H. reflexivity. }
  split; [|split].
  - intros H. unfold main. cbn [List.length].
    destruct (Nat.eqb_spec (S (List.length args)) 7) as [E|_]; [lia|].
    cbn [negb]. now rewrite list_index_head.
  - intros H. split; [now apply Hmain|].
    intros printed status. rewrite (Hmain H). apply launch_never_exits.
  - intros a1 a2 a3 a4 a5 a6 p i n -> Himport Hp Hi Hn.
    rewrite (Hmain eq_refl). unfold launch.
    change (list_index [script; a1; a2; a3; a4; a5; a6] 1) with (Ok a1).
    change (list_index [script; a1; a2; a3; a4; a5; a6] 2) with (Ok a2).
    change (list_index [script; a1; a2; a3; a4; a5; a6] 3) with (Ok a3).
    change (list_index [script; a1; a2; a3; a4; a5; a6] 4) with (Ok a4).
    change (list_index [script; a1; a2; a3; a4; a5; a6] 5) with (Ok a5).
    change (list_index [script; a1; a2; a3; a4; a5; a6] 6) with (Ok a6).
    cbn [bind]. rewrite Himport. cbn [bind]. rewrite Hp, Hi, Hn. cbn [bind].
    destruct (run_client _) as [[]|e]; reflexivity.
Qed.

Lemma launcher_checks_argument_count_witness :
  main (fun _ _ => Ok tt) example_run_client
       ["launcher_sofa_environment.py"; "envs/simulation.py"; "SpringEnvironment";
        "localhost"; "10000"; "1"]
  = Exit (usage "launcher_sofa_environment.py") 1
  /\ main (fun _ _ => Ok tt) example_run_client
          ["launcher_sofa_environment.py"; "envs/simulation.py"; "SpringEnvironment";
           "localhost"; "10000"; "1"; "4"]
     = Launched {| environment := ("simulation", "SpringEnvironment");
                   ip_address := "localhost"; port := 10000;
                   instance_id := 1; instance_nb := 4 |}
                "[launcherSofaEnvironment] Shutting down client localhost".
Proof.
  split.
  - apply (launcher_checks_argument_count (fun _ _ => Ok tt) example_run_client
             "launcher_sofa_environment.py"
             ["envs/simulation.py"; "SpringEnvironment"; "localhost"; "10000"; "1"]).
    simpl. lia.
  - apply (proj2 (proj2 (launcher_checks_argument_count
                           (fun _ _ => Ok tt) example_run_client
                           "launcher_sofa_environment.py"
                           ["envs/simulation.py"; "SpringEnvironment"; "localhost";
                            "10000"; "1"; "4"]))
                 "envs/simulation.py" "SpringEnvironment" "localhost" "10000" "1" "4"
                 10000 1 4); reflexivity.
Defined.

(** * Further properties of the code *)

(** ** [load_network]: which file is loaded *)

Lemma list_index_valid {A : Type} (l : list A) (i : Z) :
  - Z.of_nat (List.length l) <= i < Z.of_nat (List.length l) ->
  exists a, list_index l i = Ok a /\ In a l.
Proof.
  intros Hi. unfold list_index.
  set (n := Z.of_nat (List.length l)) in *.
  set (j := if i <? 0 then i + n else i).
  assert (Hj : 0 <= j < n) by (unfold j; destruct (Z.ltb_spec i 0); lia).
  destruct (Z.ltb_spec j 0); [lia|].
  destruct (Z.leb_spec n j); [lia|]. cbn [orb].
  destruct (nth_error l (Z.to_nat j)) as [a|] eqn:E.
  - exists a. split; [reflexivity|]. eapply nth_error_In; eauto.
  - apply nth_error_None in E. unfold n in Hj. lia.
Qed.

Lemma list_networks_Ok (dir : string) (w : world) (l : list string) :
  list_networks dir w = Ok l ->
  exists names,
    listdir dir (fs w) = Ok names
    /\ l = (sorted (map (join dir)
                        (filter (fun f => isfile (join dir f) (fs w)
                                          && contains "network_" f) names))
            ++ map (join dir)
                   (filter (fun f => isfile (join dir f) (fs w)
                                     && contains "networks." f) names))%list.
Proof.
  unfold list_networks. intros H.
  destruct (listdir dir (fs w)) as [names|] eqn:E; [|discriminate].
  cbn [bind] in H. inversion H. eauto.
Qed.



(** X3: with two or more saved sets, an index within the bounds of the
    list (negative ones counting from the end) loads the entry it
    designates, without a warning. *)
Theorem load_network_index_in_range (which_network : Z) (m : NetworkManager)
  (w : world) (net : Network) (l : list string) :
  network m = Some net ->
  list_networks (network_dir m) w = Ok l ->
  (2 <= List.length l)%nat ->
  - Z.of_nat (List.length l) <= which_network < Z.of_nat (List.length l) ->
  exists path,
    list_index l which_network = Ok path
    /\ In path l
    /\ load_network which_network m w
       = Ok (m, emit (LoadParameters path)
                  (emit (Print ("[" ++ name m ++ "]: Loading networks from "
                                ++ path ++ ".")) w)).
Proof.
  intros Hn Hl Hlen Hi.
  destruct (list_index_valid l which_network Hi) as (path & Hp & Hin).
  exists path. split; [exact Hp|]. split; [exact Hin|].
  unfold load_network, get_network. cbv zeta.
  rewrite Hl. cbn [bind]. rewrite Hn.
  destruct (Z.eqb_spec (Z.of_nat (List.length l)) 0); [lia|].
  destruct (Z.eqb_spec (Z.of_nat (List.length l)) 1); [lia|].
  destruct (Z.gtb_spec which_network (Z.of_nat (List.length l))); [lia|].
  cbn [bind fst snd]. rewrite Hp. reflexivity.
Qed.

Lemma list_index_Ok_In {A : Type} (l : list A) (i : Z) (a : A) :
  list_index l i = Ok a -> In a l.
Proof.
  unfold list_index. destruct (_ || _); [discriminate|].
  destruct (nth_error l _) eqn:E; [|discriminate].
  intros H; inversion H; subst. eapply nth_error_In; eauto.
Qed.

Lemma insert_sorted_perm (x : string) (l : list string) :
  Permutation.Permutation (insert_sorted x l) (x :: l).
Proof.
  induction l as [|y l IH]; simpl; [apply Permutation.Permutation_refl|].
  destruct (String.leb x y); [apply Permutation.Permutation_refl|].
  eapply Permutation.perm_trans; [apply Permutation.perm_skip; exact IH|].
  apply Permutation.perm_swap.
Qed.

Lemma sorted_perm (l : list string) : Permutation.Permutation (sorted l) l.
Proof.
  induction l as [|x l IH]; simpl; [constructor|].
  eapply Permutation.perm_trans; [apply insert_sorted_perm|].
  now apply Permutation.perm_skip.
Qed.

Lemma insert_sorted_Sorted (x : string) (l : list string) :
  Sorted.Sorted (fun a b => String.leb a b = true) l ->
  Sorted.Sorted (fun a b => String.leb a b = true) (insert_sorted x l).
Proof.
  induction l as [|y l IH]; intros Hs; simpl.
  - repeat constructor.
  - destruct (String.leb x y) eqn:E.
    + constructor; [exact Hs | constructor; exact E].
    + inversion Hs as [|? ? Hs' Hhd]; subst.
      constructor; [apply IH; exact Hs'|].
      assert (Hyx : String.leb y x = true)
        by (destruct (String.leb_total x y); congruence).
      destruct l as [|z l]; simpl.
      * constructor; exact Hyx.
      * destruct (String.leb x z); constructor; [exact Hyx|].
        inversion Hhd; assumption.
Qed.

Lemma sorted_Sorted (l : list string) :
  Sorted.Sorted (fun a b => String.leb a b = true) (sorted l).
Proof.
  induction l as [|x l IH]; simpl; [constructor|].
  now apply insert_sorted_Sorted.
Qed.

(** X4: a load never changes the manager or the file system, and what it
    loads is always a regular file of the network directory whose name
    contains [network_] or [networks.]. *)
Theorem load_network_only_reads (which_network : Z) (m m' : NetworkManager)
  (w w' : world) :
  load_network which_network m w = Ok (m', w') ->
  m' = m
  /\ fs w' = fs w
  /\ exists names f,
       listdir (network_dir m) (fs w) = Ok names
       /\ In f names
       /\ isfile (join (network_dir m) f) (fs w) = true
       /\ (contains "network_" f = true \/ contains "networks." f = true)
       /\ last_event w' = LoadParameters (join (network_dir m) f).
Proof.
  intros H. destruct (load_network_Ok _ _ _ _ _ H) as [-> Hfs].
  split; [reflexivity|]. split; [exact Hfs|].
  unfold load_network in H. cbv zeta in H.
  bind_inv H. bind_inv H. bind_inv H. bind_inv H.
  injection H as Hw. subst w'.
  apply list_networks_Ok in Hx. destruct Hx as (names & Hnames & ->).
  apply list_index_Ok_In in Hx1.
  assert (Hf : exists f, In f names
                         /\ isfile (join (network_dir m) f) (fs w) = true
                         /\ (contains "network_" f = true
                             \/ contains "networks." f = true)
                         /\ x1 = join (network_dir m) f).
  { apply in_app_or in Hx1. destruct Hx1 as [Hin|Hin].
    - apply (Permutation.Permutation_in _ (sorted_perm _)) in Hin.
      apply in_map_iff in Hin. destruct Hin as (f & <- & Hin).
      apply filter_In in Hin. destruct Hin as [Hin Hp].
      apply andb_prop in Hp. exists f. tauto.
    - apply in_map_iff in Hin. destruct Hin as (f & <- & Hin).
      apply filter_In in Hin. destruct Hin as [Hin Hp].
      apply andb_prop in Hp. exists f. tauto. }
  destruct Hf as (f & Hin & Hfile & Hname & ->).
  exists names, f. repeat split; auto.
  unfold last_event, emit; cbn [trace]. apply last_last.
Qed.

(** X5: the list of saved networks is made of the snapshot paths, in the
    order of their strings (code points, not snapshot numbers), followed
    by the paths of the files whose name contains [networks.], in the
    order of the directory listing. *)
Theorem list_networks_order (dir : string) (w : world) (l : list string) :
  list_networks dir w = Ok l ->
  exists names snapshots,
    listdir dir (fs w) = Ok names
    /\ l = (snapshots
            ++ map (join dir)
                   (filter (fun f => isfile (join dir f) (fs w)
                                     && contains "networks." f) names))%list
    /\ Sorted.Sorted (fun a b => String.leb a b = true) snapshots
    /\ Permutation.Permutation
         snapshots
         (map (join dir)
              (filter (fun f => isfile (join dir f) (fs w)
                                && contains "network_" f) names)).
Proof.
  intros H. apply list_networks_Ok in H. destruct H as (names & Hn & ->).
  exists names. eexists. split; [exact Hn|]. split; [reflexivity|].
  split; [apply sorted_Sorted | apply sorted_perm].
Qed.

Lemma list_index_single {A : Type} (l : list A) (d : A) :
  List.length l = 1%nat -> list_index l 0 = Ok (List.last l d).
Proof.
  destruct l as [|a [|b l']]; simpl; intros H; try discriminate. reflexivity.
Qed.

(** X6: with the default index [-1], a file whose name contains
    [networks.] (the final save) is preferred to every numbered snapshot:
    the last such file of the directory listing is the one loaded. *)
Theorem load_network_default_prefers_final (m : NetworkManager) (w : world)
  (net : Network) (names : list string) :
  network m = Some net ->
  listdir (network_dir m) (fs w) = Ok names ->
  filter (fun f => isfile (join (network_dir m) f) (fs w)
                   && contains "networks." f) names <> [] ->
  exists w',
    load_network (-1) m w = Ok (m, w')
    /\ last_event w'
       = LoadParameters
           (join (network_dir m)
                 (List.last
                    (filter (fun f => isfile (join (network_dir m) f) (fs w)
                                      && contains "networks." f) names) "")).
Proof.
  intros Hn Hnames Hfinal.
  set (finals := filter (fun f => isfile (join (network_dir m) f) (fs w)
                                  && contains "networks." f) names) in *.
  set (snaps := sorted (map (join (network_dir m))
                  (filter (fun f => isfile (join (network_dir m) f) (fs w)
                                    && contains "network_" f) names))).
  assert (Hl : list_networks (network_dir m) w
               = Ok (snaps ++ map (join (network_dir m)) finals)%list).
  { unfold list_networks. rewrite Hnames. reflexivity. }
  set (l := (snaps ++ map (join (network_dir m)) finals)%list) in *.
  assert (Hlast : List.last l "" = join (network_dir m) (List.last finals "")).
  { unfold l. destruct (exists_last Hfinal) as (init & f & Ef). rewrite Ef.
    rewrite map_app, app_assoc. cbn [map].
    now rewrite !last_last. }
  assert (Hne : l <> []).
  { unfold l. destruct finals; [congruence|].
    intros E. apply app_eq_nil in E. destruct E as [_ E]. discriminate. }
  assert (Hidx : forall i, (List.length l = 1%nat /\ i = 0) \/
                           ((2 <= List.length l)%nat /\ i = -1) ->
                           list_index l i = Ok (List.last l "")).
  { intros i [[H1 ->]|[H2 ->]].
    - now apply list_index_single.
    - now apply list_index_last. }
  unfold load_network, get_network. cbv zeta. rewrite Hl. cbn [bind]. rewrite Hn.
  destruct (Z.eqb_spec (Z.of_nat (List.length l)) 0) as [E0|E0].
  { destruct l; [congruence | simpl in E0; lia]. }
  destruct (Z.eqb_spec (Z.of_nat (List.length l)) 1) as [E1|E1].
  - cbn [bind fst snd]. rewrite (Hidx 0) by (left; split; [lia | reflexivity]).
    cbn [bind]. eexists. split; [reflexivity|].
    unfold last_event, emit; cbn [trace]. rewrite last_last. now rewrite Hlast.
  - destruct (Z.gtb_spec (-1) (Z.of_nat (List.length l))); [lia|].
    cbn [bind fst snd].
    rewrite (Hidx (-1)) by (right; split; [destruct l; simpl in *; [congruence|lia] | reflexivity]).
    cbn [bind]. eexists. split; [reflexivity|].
    unfold last_event, emit; cbn [trace]. rewrite last_last. now rewrite Hlast.
Qed.

(** ** [save_network]: counter, removed backups and written paths *)

Lemma fs_lookup_filter (keep : string -> bool) (p : string) (f : filesystem) :
  fs_lookup p (filter (fun e => keep (fst e)) f)
  = if keep p then fs_lookup p f else None.
Proof.
  induction f as [|[q k] f IH]; simpl.
  - now destruct (keep p).
  - destruct (keep q) eqn:Eq; simpl.
    + destruct (String.eqb_spec p q) as [->|Hne]; [now rewrite Eq | exact IH].
    + destruct (String.eqb_spec p q) as [->|Hne]; [now rewrite Eq in * | exact IH].
Qed.

Lemma remove_Ok (p : string) (f f' : filesystem) :
  remove p f = Ok f' ->
  fs_lookup p f = Some File
  /\ forall q, fs_lookup q f' = if String.eqb p q then None else fs_lookup q f.
Proof.
  unfold remove. destruct (fs_lookup p f) as [[|]|] eqn:E; try discriminate.
  intros H; inversion H; subst. split; [reflexivity|].
  intros q. rewrite (fs_lookup_filter (fun key => negb (String.eqb p key))).
  now destruct (String.eqb p q).
Qed.

(** Removing the temporary files: each one was a regular file, none of
    them is left, every other path is as it was, and the trace records the
    removals in order. *)
Lemma remove_all_Ok (dir : string) (temp_files : list string) :
  forall w w1 : world,
    remove_all dir temp_files w = Ok w1 ->
    (forall f, In f temp_files -> fs_lookup (join dir f) (fs w) = Some File)
    /\ (forall q, fs_lookup q (fs w1)
                  = if existsb (fun f => String.eqb (join dir f) q) temp_files
                    then None else fs_lookup q (fs w))
    /\ trace w1 = (trace w ++ map (fun f => Remove (join dir f)) temp_files)%list.
Proof.
  induction temp_files as [|f rest IH]; intros w w1 H; simpl in H.
  - inversion H; subst. repeat split; [intros f [] | now rewrite app_nil_r].
  - bind_inv H. apply remove_Ok in Hx. destruct Hx as [Hfile Hlook].
    apply IH in H. cbn [fs trace] in H. destruct H as (Hfiles & Hrest & Htrace).
    split; [|split].
    + intros g [<-|Hg]; [exact Hfile|].
      specialize (Hfiles g Hg). rewrite Hlook in Hfiles.
      destruct (String.eqb (join dir f) (join dir g)); [discriminate | exact Hfiles].
    + intros q. rewrite Hrest, Hlook. cbn [existsb].
      destruct (String.eqb (join dir f) q); cbn [orb];
        now destruct (existsb _ rest).
    + rewrite Htrace. cbn [map]. now rewrite <- app_assoc.
Qed.

(** X7: after [k] intermediate saves that succeeded, the save counter has
    advanced by [k] when a cadence is configured and has not moved
    otherwise; the database handler and the attributes set by the
    constructor are those of the start. *)
Theorem intermediate_saves_advance_counter (k : nat) (m m' : NetworkManager)
  (w w' : world) :
  run (intermediate_saves k) (m, w) = Ok (m', w') ->
  saved_counter m' = (if save_every_epoch m >? 0
                      then saved_counter m + Z.of_nat k
                      else saved_counter m)
  /\ database_handler m' = database_handler m
  /\ same_configuration m m'.
Proof.
  intros H. pose proof (run_same_configuration _ _ _ _ _ H) as Hc.
  apply intermediate_saves_counter in H. subst m'.
  destruct (save_every_epoch m >? 0); repeat split; apply Hc.
Qed.

(** X8: when an intermediate save succeeds, every entry of the network
    directory whose name contains [backup] was a regular file and is gone
    from the file system that the network saves its parameters into; every
    other path is untouched, and the only calls added after the removals
    are an optional print and one [save_parameters]. *)
Theorem save_network_removes_backups (m m' : NetworkManager) (w w' : world) :
  save_network false m w = Ok (m', w') ->
  exists names net path fs1 msgs,
    listdir (network_dir m) (fs w) = Ok names
    /\ network m = Some net
    /\ (forall f, In f names -> contains "backup" f = true ->
                  fs_lookup (join (network_dir m) f) (fs w) = Some File
                  /\ fs_lookup (join (network_dir m) f) fs1 = None)
    /\ (forall q, (forall f, In f names -> contains "backup" f = true ->
                             join (network_dir m) f <> q) ->
                  fs_lookup q fs1 = fs_lookup q (fs w))
    /\ fs w' = save_parameters net path fs1
    /\ (msgs = [] \/ exists s, msgs = [Print s])
    /\ trace w'
       = (trace w
          ++ map (fun f => Remove (join (network_dir m) f))
                 (filter (contains "backup") names)
          ++ msgs ++ [SaveParameters path])%list.
Proof.
  unfold save_network. cbv zeta. intros H.
  bind_inv H. rename x into names. bind_inv H. rename x into w1.
  apply remove_all_Ok in Hx0. destruct Hx0 as (Hfiles & Hlook & Htrace).
  assert (Hgone : forall f, In f names -> contains "backup" f = true ->
            fs_lookup (join (network_dir m) f) (fs w) = Some File
            /\ fs_lookup (join (network_dir m) f) (fs w1) = None).
  { intros f Hin Hb. split; [apply Hfiles; apply filter_In; auto|].
    rewrite Hlook.
    assert (E : existsb (fun g => String.eqb (join (network_dir m) g)
                                             (join (network_dir m) f))
                        (filter (contains "backup") names) = true).
    { apply existsb_exists. exists f. split; [apply filter_In; auto|].
      apply String.eqb_refl. }
    now rewrite E. }
  assert (Hkept : forall q,
            (forall f, In f names -> contains "backup" f = true ->
                       join (network_dir m) f <> q) ->
            fs_lookup q (fs w1) = fs_lookup q (fs w)).
  { intros q Hq. rewrite Hlook.
    destruct (existsb _ _) eqn:E; [|reflexivity].
    apply existsb_exists in E. destruct E as (f & Hin & Heq).
    apply filter_In in Hin. destruct Hin as [Hin Hb].
    apply String.eqb_eq in Heq. now destruct (Hq f Hin Hb). }
  assert (Hsave : forall p mm w2 w3,
            do_save p mm w2 = Ok w3 -> network mm = network m ->
            exists net, network m = Some net
                        /\ fs w3 = save_parameters net p (fs w2)
                        /\ trace w3 = (trace w2 ++ [SaveParameters p])%list).
  { intros p mm w2 w3 Hs Hn. unfold do_save, get_network in Hs. rewrite Hn in Hs.
    destruct (network m) as [net|]; [|discriminate].
    cbn [bind] in Hs. inversion Hs; subst. exists net. auto. }
  destruct (save_every_epoch m >? 0).
  - cbn [saved_counter save_every_epoch set_saved_counter
         network_template_name name] in H.
    destruct (_ =? 0); cbn [negb] in H.
    + bind_inv H. injection H as _ <-.
      destruct (Hsave _ _ _ _ Hx0 eq_refl) as (net & Hn & Hfs & Htr).
      exists names, net, (join (network_dir m) "backup_network"), (fs w1), [].
      repeat split; auto; try apply Hgone; auto.
      rewrite Htr, Htrace. now rewrite <- app_assoc.
    + bind_inv H. bind_inv H. injection H as _ <-.
      destruct (Hsave _ _ _ _ Hx1 eq_refl) as (net & Hn & Hfs & Htr).
      exists names, net, (join (network_dir m) x), (fs w1).
      eexists [Print _].
      repeat split; auto; try apply Hgone; auto; [right; eauto|].
      rewrite Htr. cbn [emit trace]. rewrite Htrace.
      rewrite <- !app_assoc. reflexivity.
  - bind_inv H. injection H as _ <-.
    destruct (Hsave _ _ _ _ Hx0 eq_refl) as (net & Hn & Hfs & Htr).
    exists names, net, (join (network_dir m) "backup_network"), (fs w1), [].
    repeat split; auto; try apply Hgone; auto.
    rewrite Htr, Htrace. now rewrite <- app_assoc.
Qed.

Lemma append_empty_r (s : string) : s ++ "" = s.
Proof. induction s as [|a s IH]; simpl; [reflexivity | now rewrite IH]. Qed.

Lemma format_literal_char (a : ascii) (rest arg : string) :
  a <> "{"%char -> a <> "}"%char ->
  format (String a rest) arg = (let* r := format rest arg in Ok (String a r)).
Proof.
  intros Ho Hc.
  destruct a as [[] [] [] [] [] [] [] []];
    try reflexivity; exfalso; (apply Ho; reflexivity) || (apply Hc; reflexivity).
Qed.

Lemma contains_cons (sub : string) (a : ascii) (s : string) :
  contains sub (String a s) = false ->
  String.prefix sub (String a s) = false /\ contains sub s = false.
Proof. simpl. intros H. apply orb_false_elim in H. exact H. Qed.

(** A template made of a text without braces followed by [_network_{}]
    formats to the text, [_network_] and the argument. *)
Lemma format_network_template (prefix arg : string) :
  contains "{" prefix = false ->
  contains "}" prefix = false ->
  format (prefix ++ "_network_{}") arg = Ok (prefix ++ "_network_" ++ arg).
Proof.
  induction prefix as [|a p IH]; intros Ho Hc.
  - cbn. now rewrite append_empty_r.
  - apply contains_cons in Ho. destruct Ho as [Ho Ho'].
    apply contains_cons in Hc. destruct Hc as [Hc Hc'].
    cbn [append]. rewrite format_literal_char.
    + rewrite (IH Ho' Hc'). reflexivity.
    + intros ->. cbn in Ho. destruct p; discriminate.
    + intros ->. cbn in Hc. destruct p; discriminate.
Qed.

(** The shape of the trace after an intermediate save. *)
Lemma save_network_removes_backups_trace (m m' : NetworkManager) (w w' : world) :
  save_network false m w = Ok (m', w') ->
  exists names msgs path,
    (msgs = [] \/ exists s, msgs = [Print s])
    /\ trace w'
       = (trace w
          ++ map (fun f => Remove (join (network_dir m) f))
                 (filter (contains "backup") names)
          ++ msgs ++ [SaveParameters path])%list.
Proof.
  unfold save_network. cbv zeta. intros H.
  bind_inv H. rename x into names. bind_inv H. rename x into w1.
  apply remove_all_Ok in Hx0. destruct Hx0 as (_ & _ & Htrace).
  assert (Hsave : forall p mm w2 w3,
            do_save p mm w2 = Ok w3 ->
            trace w3 = (trace w2 ++ [SaveParameters p])%list).
  { intros p mm w2 w3 Hs. unfold do_save in Hs. bind_inv Hs.
    inversion Hs; subst. reflexivity. }
  destruct (save_every_epoch m >? 0).
  - cbn [saved_counter save_every_epoch set_saved_counter
         network_template_name name] in H.
    destruct (_ =? 0); cbn [negb] in H.
    + bind_inv H. injection H as _ <-. exists names, []. eexists.
      split; [now left|]. rewrite (Hsave _ _ _ _ Hx0), Htrace.
      now rewrite <- app_assoc.
    + bind_inv H. bind_inv H. injection H as _ <-.
      exists names. eexists [Print _]. eexists.
      split; [right; eauto|]. rewrite (Hsave _ _ _ _ Hx1).
      cbn [emit trace]. rewrite Htrace. rewrite <- !app_assoc. reflexivity.
  - bind_inv H. injection H as _ <-. exists names, []. eexists.
    split; [now left|]. rewrite (Hsave _ _ _ _ Hx0), Htrace.
    now rewrite <- app_assoc.
Qed.

(** An intermediate save that succeeds writes one set of parameters, last
    in the trace, either under [backup_network] or, for a template whose
    [prefix] has no brace, under [prefix_network_c] where [c] is the save
    counter after the call. *)
Lemma save_network_written_path (m m' : NetworkManager) (w w' : world)
  (prefix : string) :
  network_template_name m = prefix ++ "_network_{}" ->
  contains "{" prefix = false ->
  contains "}" prefix = false ->
  save_network false m w = Ok (m', w') ->
  last_event w' = SaveParameters (join (network_dir m) "backup_network")
  \/ last_event w'
     = SaveParameters (join (network_dir m)
                            (prefix ++ "_network_" ++ str_of_int (saved_counter m'))).
Proof.
  intros Ht Ho Hc H. apply save_network_intermediate in H.
  destruct H as (dir & <- & H).
  destruct (save_every_epoch m >? 0).
  - destruct H as [-> H]. cbn [saved_counter set_saved_counter].
    destruct (_ =? 0); [now left|].
    destruct H as (file & Hf & Hl). right.
    rewrite Ht, (format_network_template _ _ Ho Hc) in Hf.
    inversion Hf; subst file. exact Hl.
  - destruct H as [-> H]. now left.
Qed.

(** X10: without a cadence (zero or negative [save_every_epoch]) an
    intermediate save writes the rolling [backup_network] only and leaves
    the manager, its counter included, as it was. *)
Theorem save_network_no_cadence (m m' : NetworkManager) (w w' : world) :
  save_every_epoch m <= 0 ->
  save_network false m w = Ok (m', w') ->
  m' = m
  /\ last_event w' = SaveParameters (join (network_dir m) "backup_network")
  /\ forall path, In (SaveParameters path) (trace w') ->
                  In (SaveParameters path) (trace w)
                  \/ path = join (network_dir m) "backup_network".
Proof.
  intros HN H.
  destruct (save_network_without_cadence m m' w w' (network_dir m) HN eq_refl H)
    as [-> Hlast].
  split; [reflexivity|]. split; [exact Hlast|].
  intros path Hin.
  destruct (save_network_removes_backups_trace m m w w' H) as (names & msgs & p & Hm & Ht).
  rewrite Ht in Hin. unfold last_event in Hlast. rewrite Ht in Hlast.
  rewrite !app_assoc in Hlast. rewrite last_last in Hlast. inversion Hlast; subst p.
  apply in_app_or in Hin. destruct Hin as [Hin|Hin]; [now left|].
  apply in_app_or in Hin. destruct Hin as [Hin|Hin].
  - apply in_map_iff in Hin. destruct Hin as (f & Hf & _). discriminate.
  - apply in_app_or in Hin. destruct Hin as [Hin|[Hin|[]]].
    + destruct Hm as [->|(s & ->)]; [destruct Hin|].
      destruct Hin as [Hin|[]]. discriminate.
    + inversion Hin. now right.
Qed.

(** ** [normalize_data]: coefficients and the other round trip *)

Lemma list_index_second {A : Type} (a b : A) (l : list A) :
  list_index (a :: b :: l) 1 = Ok b.
Proof.
  unfold list_index. change (1 <? 0) with false. cbv iota.
  destruct (Z.leb_spec (Z.of_nat (List.length (a :: b :: l))) 1) as [H|H].
  - simpl List.length in H. lia.
  - reflexivity.
Qed.

(** X11: fewer than two coefficients make [normalize_data] raise
    [IndexError] in both directions; with at least two it succeeds, keeps
    the shape and the number of values, and only reads the first two. *)
Theorem normalize_data_coefficients (a : ndarray) (normalization : list Q)
  (reverse : bool) :
  ((List.length normalization < 2)%nat ->
   normalize_data a normalization reverse = Raise IndexError)
  /\ (forall mean scale rest,
        normalization = mean :: scale :: rest ->
        exists b,
          normalize_data a normalization reverse = Ok b
          /\ normalize_data a [mean; scale] reverse = Ok b
          /\ shape b = shape a
          /\ List.length (data b) = List.length (data a)).
Proof.
  split.
  - intros Hlen. destruct normalization as [|x [|y l]]; simpl in Hlen; try lia;
      destruct reverse; reflexivity.
  - intros mean scale rest ->. unfold normalize_data.
    rewrite !list_index_head, !list_index_second.
    destruct reverse; cbn [bind]; eexists; repeat split;
      unfold array_map; cbn [data]; now rewrite length_map.
Qed.

Lemma normalize_data_coefficients_witness :
  normalize_data {| shape := [2%nat]; data := [5#1; 9#2]%Q |} [1#1]%Q true
  = Raise IndexError
  /\ exists b,
       normalize_data {| shape := [2%nat]; data := [5#1; 9#2]%Q |}
                      [1#1; 2#1; 7#1]%Q false = Ok b
       /\ shape b = [2%nat].
Proof.
  split.
  - apply (normalize_data_coefficients
             {| shape := [2%nat]; data := [5#1; 9#2]%Q |} [1#1]%Q true).
    simpl. lia.
  - destruct (proj2 (normalize_data_coefficients
                       {| shape := [2%nat]; data := [5#1; 9#2]%Q |}
                       [1#1; 2#1; 7#1]%Q false)
                    (1#1)%Q (2#1)%Q [7#1]%Q eq_refl)
      as (b & Hb & _ & Hs & _).
    exists b. split; assumption.
Defined.

(** ** [compute_online_prediction]: what reaches the network and the row *)

Lemma mapM_app_raise {A B : Type} (f : A -> result B) (before after : list A)
  (x : A) (done : list B) (e : exception) :
  mapM f before = Ok done ->
  f x = Raise e ->
  mapM f (before ++ x :: after) = Raise e.
Proof.
  revert done. induction before as [|a before IH]; intros done Hb Hx; simpl.
  - now rewrite Hx.
  - simpl in Hb. bind_inv Hb. bind_inv Hb. rewrite Hx0. cbn [bind].
    rewrite (IH _ Hx1 Hx). reflexivity.
Qed.

Lemma dict_mapM_keys {V W : Type} (f : string -> V -> result W) :
  forall (d : dict V) (d' : dict W),
    dict_mapM f d = Ok d' -> dict_keys d' = dict_keys d.
Proof.
  unfold dict_mapM, dict_keys.
  induction d as [|[k v] d IH]; intros d' H; simpl in H.
  - now inversion H.
  - bind_inv H. bind_inv Hx. inversion Hx; subst. bind_inv H.
    inversion H; subst. simpl. f_equal. now apply IH.
Qed.

(** X13: a predicted field for which the network registers no
    reverse-normalization target makes the call raise [KeyError], even
    when no normalization is given, once the fields before it have been
    processed. *)
Theorem online_prediction_unregistered_target
  (i : Z) (norm : option (dict (list Q))) (m : NetworkManager) (net : Network)
  (sample before after : dict tensor) (done : dict ndarray)
  (X : string) (t t0 : tensor) :
  network m = Some net ->
  prepared_sample i (or_empty norm) m = Ok sample ->
  predict_sample m net sample = (before ++ (X, t) :: after)%list ->
  dict_mapM (finish_field net (or_empty norm)) before = Ok done ->
  tensor_get0 t = Ok t0 ->
  dict_get X (pred_norm_fields net) = None ->
  compute_online_prediction i norm m = Raise KeyError.
Proof.
  intros Hn Hs Hp Hb Ht0 Hx.
  unfold compute_online_prediction, get_network. rewrite Hn. cbn [bind].
  rewrite Hs. cbn [bind]. rewrite Hp.
  unfold dict_mapM in *.
  erewrite mapM_app_raise; [reflexivity | exact Hb |].
  cbn [fst snd]. unfold finish_field, dict_item. rewrite Ht0. cbn [bind].
  now rewrite Hx.
Qed.

(** X14: on success, the payload given to the store has the keys of the
    prediction, in the same order; each entry is the prediction without
    its batch axis, converted to an array, and unnormalized with the
    coefficients of its registered target when the normalization has
    some, left as converted otherwise. *)
Theorem online_prediction_payload
  (i : Z) (norm : option (dict (list Q))) (m m' : NetworkManager) :
  compute_online_prediction i norm m = Ok m' ->
  exists net sample payload,
    network m = Some net
    /\ prepared_sample i (or_empty norm) m = Ok sample
    /\ update payload i (database_handler m) = Ok (database_handler m')
    /\ dict_keys payload = dict_keys (predict_sample m net sample)
    /\ forall field t,
         dict_get field (predict_sample m net sample) = Some t ->
         exists t0 target b,
           tensor_get0 t = Ok t0
           /\ dict_get field (pred_norm_fields net) = Some target
           /\ dict_get field payload = Some b
           /\ match dict_get target (or_empty norm) with
              | Some coeffs =>
                  normalize_data (tensor_to_numpy net t0) coeffs true = Ok b
              | None => b = tensor_to_numpy net t0
              end.
Proof.
  intros H. apply compute_online_prediction_Ok in H.
  destruct H as (net & sample & payload & db & Hn & Hs & Hp & Hu & ->).
  exists net, sample, payload. repeat split; auto.
  - eapply dict_mapM_keys; eauto.
  - intros field t Ht.
    pose proof (dict_mapM_get _ field _ _ Hp) as Hg. rewrite Ht in Hg.
    destruct Hg as (b & Hb & Hget).
    unfold finish_field, dict_item, dict_mem in Hb.
    destruct (tensor_get0 t) as [t0|]; [|discriminate]. cbn [bind] in Hb.
    destruct (dict_get field (pred_norm_fields net)) as [target|]; [|discriminate].
    cbn [bind] in Hb.
    exists t0, target, b. repeat split; auto.
    destruct (dict_get target (or_empty norm)) as [coeffs|].
    + cbn [bind] in Hb. bind_inv Hb. now inversion Hb; subst.
    + cbn [bind] in Hb. now inversion Hb.
Qed.

Lemma dict_get_remove {V : Type} (k key : string) (d : dict V) :
  dict_get k (dict_remove key d)
  = if String.eqb key k then None else dict_get k d.
Proof.
  unfold dict_remove. induction d as [|[k0 v0] d IH]; simpl.
  - now destruct (String.eqb key k).
  - destruct (String.eqb_spec key k0) as [->|Hne]; simpl.
    + rewrite IH. rewrite (String.eqb_sym k k0).
      now destruct (String.eqb k0 k).
    + destruct (String.eqb_spec k k0) as [->|Hne'].
      * destruct (String.eqb_spec key k0); [contradiction | reflexivity].
      * exact IH.
Qed.

(** X15: the sample handed to the network never has an [id] entry; every
    other field read from the row of the instance is there, as the array
    of the one-element batch, normalized with the coefficients listed
    under its own name when there are some and as read otherwise, then
    converted to a tensor. *)
Theorem online_prediction_network_input
  (i : Z) (norm : dict (list Q)) (m : NetworkManager) (sample : dict tensor) :
  prepared_sample i norm m = Ok sample ->
  dict_get "id" sample = None
  /\ exists net line,
       network m = Some net
       /\ get_line (net_fields net) i (database_handler m) = Ok line
       /\ forall field v,
            field <> "id" ->
            dict_get field line = Some v ->
            exists t,
              dict_get field sample = Some t
              /\ match dict_get field norm with
                 | Some coeffs =>
                     exists a,
                       normalize_data (array_of_singleton v) coeffs false = Ok a
                       /\ t = numpy_to_tensor net a
                 | None => t = numpy_to_tensor net (array_of_singleton v)
                 end.
Proof.
  unfold prepared_sample, get_network. intros H.
  destruct (network m) as [net|]; [|discriminate]. cbn [bind] in H.
  bind_inv H. rename x into line. bind_inv H. rename x into trimmed.
  unfold dict_del in Hx0. destruct (dict_mem "id" line); [|discriminate].
  inversion Hx0; subst trimmed. clear Hx0.
  split.
  - pose proof (dict_mapM_get _ "id" _ _ H) as Hg.
    rewrite dict_get_remove, String.eqb_refl in Hg. exact Hg.
  - exists net, line. repeat split; auto.
    intros field v Hne Hv.
    pose proof (dict_mapM_get _ field _ _ H) as Hg.
    rewrite dict_get_remove in Hg.
    destruct (String.eqb_spec "id" field) as [E|_]; [congruence|].
    rewrite Hv in Hg. destruct Hg as (t & Ht & Hget).
    exists t. split; [exact Hget|].
    unfold prepare_field in Ht.
    destruct (dict_get field norm) as [coeffs|].
    + bind_inv Ht. inversion Ht; subst. eauto.
    + cbn [bind] in Ht. now inversion Ht.
Qed.

(** ** [close]: the manager afterwards *)

Lemma close_Ok (m m' : NetworkManager) (w w' : world) :
  close m w = Ok (m', w') -> network m' = None /\ is_training m' = is_training m.
Proof.
  unfold close. intros H. bind_inv H. bind_inv H. inversion H; subst.
  split; [reflexivity|]. cbn [is_training del_network].
  destruct (is_training m) eqn:E.
  - destruct x as [m1 w1]. apply save_network_same_handler in Hx.
    destruct Hx as [(_ & _ & _ & _ & _ & Ht) _]. cbn [fst]. congruence.
  - inversion Hx; subst. cbn [fst]. exact E.
Qed.

Lemma save_network_needs_network (b : bool) (m m' : NetworkManager) (w w' : world) :
  save_network b m w = Ok (m', w') -> exists net, network m = Some net.
Proof.
  assert (Hsave : forall p mm w2 w3,
            do_save p mm w2 = Ok w3 -> exists net, network mm = Some net).
  { intros p mm w2 w3 Hs. unfold do_save, get_network in Hs.
    destruct (network mm) as [net|]; [eauto | discriminate]. }
  destruct b; intros H.
  - apply save_network_final in H. destruct H as (_ & net & _ & Hn & _). eauto.
  - unfold save_network in H. cbv zeta in H. bind_inv H. bind_inv H.
    destruct (save_every_epoch m >? 0).
    + cbn [saved_counter save_every_epoch set_saved_counter
           network_template_name name] in H.
      destruct (_ =? 0); cbn [negb] in H.
      * bind_inv H. apply Hsave in Hx1. exact Hx1.
      * bind_inv H. bind_inv H. apply Hsave in Hx2. exact Hx2.
    + bind_inv H. apply Hsave in Hx1. exact Hx1.
Qed.

(** X16: once [close] has returned, the methods that use the network fail
    on the manager it leaves: a second [close], a final save, an online
    prediction and the linking of a number of clients raise
    [AttributeError], and [load_network] and an intermediate save end in
    an exception whatever the file system holds. *)
Theorem manager_unusable_after_close (m m' : NetworkManager) (w w' : world) :
  close m w = Ok (m', w') ->
  (forall w2, close m' w2 = Raise AttributeError)
  /\ (forall w2, save_network true m' w2 = Raise AttributeError)
  /\ (forall i norm, compute_online_prediction i norm m' = Raise AttributeError)
  /\ (forall n, link_clients (Some n) m' = Raise AttributeError)
  /\ (forall i w2, exists e, load_network i m' w2 = Raise e)
  /\ (forall w2, exists e, save_network false m' w2 = Raise e).
Proof.
  intros H. apply close_Ok in H. destruct H as [Hn _].
  assert (Hfinal : forall w2, save_network true m' w2 = Raise AttributeError).
  { intros w2. unfold save_network, do_save, get_network. now rewrite Hn. }
  split; [|split; [exact Hfinal | split; [|split; [|split]]]].
  - intros w2. unfold close. destruct (is_training m').
    + now rewrite Hfinal.
    + cbn [bind fst]. unfold get_network. now rewrite Hn.
  - intros i norm. unfold compute_online_prediction, get_network. now rewrite Hn.
  - intros n. unfold link_clients, get_network. now rewrite Hn.
  - intros i w2.
    destruct (load_network i m' w2) as [[m2 w3]|e] eqn:E; [|eauto].
    exfalso. unfold load_network in E. cbv zeta in E.
    bind_inv E. bind_inv E. bind_inv E. bind_inv E.
    unfold get_network in Hx2. rewrite Hn in Hx2. discriminate.
  - intros w2.
    destruct (save_network false m' w2) as [[m2 w3]|e] eqn:E; [|eauto].
    exfalso. apply save_network_needs_network in E.
    destruct E as (net & Hnet). congruence.
Qed.

(** ** [__init__]: what a constructed manager starts from *)

Lemma load_network_only_reads_aux (i : Z) (m m' : NetworkManager) (w w' : world) :
  load_network i m w = Ok (m', w') ->
  m' = m
  /\ fs w' = fs w
  /\ exists f, isfile (join (network_dir m) f) (fs w) = true
               /\ last_event w' = LoadParameters (join (network_dir m) f).
Proof.
  intros H. destruct (load_network_Ok _ _ _ _ _ H) as [-> Hfs].
  split; [reflexivity|]. split; [exact Hfs|].
  unfold load_network in H. cbv zeta in H.
  bind_inv H. bind_inv H. bind_inv H. bind_inv H.
  injection H as Hw. subst w'.
  apply list_networks_Ok in Hx. destruct Hx as (names & Hnames & ->).
  apply list_index_Ok_In in Hx1.
  assert (Hf : exists f, isfile (join (network_dir m) f) (fs w) = true
                         /\ x1 = join (network_dir m) f).
  { apply in_app_or in Hx1. destruct Hx1 as [Hin|Hin].
    - apply (Permutation.Permutation_in _ (sorted_perm _)) in Hin.
      apply in_map_iff in Hin. destruct Hin as (f & <- & Hin).
      apply filter_In in Hin. destruct Hin as [Hin Hp].
      apply andb_prop in Hp. exists f. tauto.
    - apply in_map_iff in Hin. destruct Hin as (f & <- & Hin).
      apply filter_In in Hin. destruct Hin as [Hin Hp].
      apply andb_prop in Hp. exists f. tauto. }
  destruct Hf as (f & Hfile & ->). exists f. split; [exact Hfile|].
  unfold last_event, emit; cbn [trace]. apply last_last.
Qed.

(** X17: outside the training pipeline the constructor reads the
    parameters from [session/networks/]: when it succeeds the file system
    is untouched, the last call is the load of a file of that directory,
    the manager is not in training mode and its Exchange table is empty;
    when that directory does not exist it raises [FileNotFoundError]. *)
Theorem init_prediction_loads_session_networks
  (copy_dir : string -> string -> string -> filesystem -> string * filesystem)
  (create_dir : string -> string -> filesystem -> string * filesystem)
  (line_id_base : Z) (cfg : NetworkConfig) (pipeline session_ : string)
  (new_session_ : bool) (w : world) :
  pipeline <> "training" ->
  (forall m w',
     init copy_dir create_dir line_id_base cfg pipeline session_ new_session_ w
     = Ok (m, w') ->
     fs w' = fs w
     /\ network_dir m = join session_ "networks/"
     /\ is_training m = false
     /\ saved_counter m = 0
     /\ exchange_rows (database_handler m) = []
     /\ exists f, isfile (join (network_dir m) f) (fs w) = true
                  /\ last_event w' = LoadParameters (join (network_dir m) f))
  /\ (fs_lookup (rstrip_sep (join session_ "networks/")) (fs w) = None ->
      init copy_dir create_dir line_id_base cfg pipeline session_ new_session_ w
      = Raise FileNotFoundError).
Proof.
  intros Hp. unfold init.
  destruct (String.eqb_spec pipeline "training") as [|_]; [contradiction|].
  cbn [andb]. split.
  - intros m w' H.
    apply load_network_only_reads_aux in H.
    destruct H as (-> & Hfs & f & Hfile & Hlast).
    cbn [network_dir is_training saved_counter database_handler
         new_database_handler exchange_rows] in *.
    cbn [emit fs] in Hfs, Hfile.
    repeat split; auto. exists f. split; assumption.
  - intros Hmissing. unfold load_network, list_networks, listdir.
    cbn [network_dir emit fs]. rewrite Hmissing. reflexivity.
Qed.

(** X18: in the training pipeline, with a loss and an optimizer, a
    configuration without a directory of networks (or a session that is
    not new) always gives a manager: nothing is loaded, the network
    directory is the one [create_dir] made, the counter is zero, the
    cadence is the configured one and the name template is the last
    component of the session path followed by [_network_{}]. *)
Theorem init_training_fresh_session
  (copy_dir : string -> string -> string -> filesystem -> string * filesystem)
  (create_dir : string -> string -> filesystem -> string * filesystem)
  (line_id_base : Z) (cfg : NetworkConfig) (session_ : string)
  (new_session_ : bool) (w : world) :
  training_stuff cfg = true ->
  cfg_network_dir cfg = None \/ new_session_ = false ->
  exists m,
    init copy_dir create_dir line_id_base cfg "training" session_ new_session_ w
    = Ok (m, {| fs := snd (create_dir session_ "networks" (fs w));
                trace := (trace w ++ [SetDevice; SetTrain])%list |})
    /\ network_dir m = fst (create_dir session_ "networks" (fs w))
    /\ is_training m = true
    /\ saved_counter m = 0
    /\ save_every_epoch m = cfg_save_every_epoch cfg
    /\ network_template_name m = split_last sep session_ ++ "_network_{}"
    /\ network m = Some (create_network cfg)
    /\ exchange_rows (database_handler m) = [].
Proof.
  intros Hts Hfresh. unfold init. rewrite Hts. cbn [String.eqb Ascii.eqb Bool.eqb andb negb].
  assert (Htrace : trace (emit SetTrain (emit SetDevice w))
                   = (trace w ++ [SetDevice; SetTrain])%list).
  { cbn [emit trace]. now rewrite <- app_assoc. }
  assert (Hfs : fs (emit SetTrain (emit SetDevice w)) = fs w) by reflexivity.
  destruct (cfg_network_dir cfg) as [src|] eqn:Esrc.
  - destruct Hfresh as [Hfresh| ->]; [discriminate|]. cbn [andb].
    rewrite Hfs, Htrace.
    destruct (create_dir session_ "networks" (fs w)) as [dir fs'].
    eexists. split; [reflexivity|]. repeat split.
  - rewrite Hfs, Htrace.
    destruct (create_dir session_ "networks" (fs w)) as [dir fs'].
    eexists. split; [reflexivity|]. repeat split.
Qed.

(** ** The worker launcher: module name, conversions and failures *)

Lemma split_nonempty (c : ascii) (s : string) : split c s <> [].
Proof.
  destruct s as [|a s]; simpl; [discriminate|].
  destruct (Ascii.eqb a c); [discriminate|].
  destruct (split c s); discriminate.
Qed.

Lemma split_no_sep (c : ascii) (s : string) :
  contains (String c EmptyString) s = false -> split c s = [s].
Proof.
  induction s as [|a s IH]; intros H; [reflexivity|].
  apply contains_cons in H. destruct H as [Hp Hs]. simpl.
  destruct (Ascii.eqb_spec a c) as [->|Hne].
  - simpl in Hp. destruct (ascii_dec c c); [|contradiction].
    destruct s; discriminate.
  - now rewrite (IH Hs).
Qed.

Lemma split_app_sep (c : ascii) (d x : string) :
  split c (d ++ String c x) = (split c d ++ split c x)%list.
Proof.
  induction d as [|a d IH]; simpl.
  - now rewrite Ascii.eqb_refl.
  - destruct (Ascii.eqb a c); [now rewrite IH|].
    rewrite IH. destruct (split c d) as [|w0 ws0] eqn:E; [|reflexivity].
    now destruct (split_nonempty c d).
Qed.

Lemma split_last_basename (d x : string) :
  contains "/" x = false -> split_last sep (d ++ "/" ++ x) = x.
Proof.
  intros H. unfold split_last. change ("/" ++ x) with (String sep x).
  rewrite split_app_sep, (split_no_sep sep x H). apply last_last.
Qed.

Lemma substring_prefix (n s : string) :
  String.substring 0 (String.length n) (n ++ s) = n.
Proof.
  induction n as [|a n IH]; simpl; [now destruct s | now rewrite IH].
Qed.

Lemma length_append (a b : string) :
  String.length (a ++ b) = (String.length a + String.length b)%nat.
Proof. induction a as [|c a IH]; simpl; [reflexivity | now rewrite IH]. Qed.

Lemma drop_last3_extension (n : string) : drop_last3 (n ++ ".py") = n.
Proof.
  unfold drop_last3. rewrite length_append. simpl String.length.
  replace (String.length n + 3 - 3)%nat with (String.length n) by lia.
  apply substring_prefix.
Qed.

Lemma prefix_char (c a : ascii) (s : string) :
  String.prefix (String c EmptyString) (String a s) = Ascii.eqb c a.
Proof.
  cbn [String.prefix]. destruct (ascii_dec c a) as [->|Hne].
  - rewrite Ascii.eqb_refl. now destruct s.
  - symmetry. now apply Ascii.eqb_neq.
Qed.

Ltac launcher_args script a1 a2 a3 a4 a5 a6 :=
  change (list_index [script; a1; a2; a3; a4; a5; a6] 1) with (Ok a1);
  change (list_index [script; a1; a2; a3; a4; a5; a6] 2) with (Ok a2);
  change (list_index [script; a1; a2; a3; a4; a5; a6] 3) with (Ok a3);
  change (list_index [script; a1; a2; a3; a4; a5; a6] 4) with (Ok a4);
  change (list_index [script; a1; a2; a3; a4; a5; a6] 5) with (Ok a5);
  change (list_index [script; a1; a2; a3; a4; a5; a6] 6) with (Ok a6);
  cbn [bind].

(** X19: for a simulation file [dir/name.py] the module the launcher
    imports the environment class from is [name]: the directory and the
    three-character extension are dropped, the import statement is run
    for [name] and the class given, and a client that was launched
    carries that module and class. *)
Theorem launcher_module_name
  (import_environment : string -> string -> result unit)
  (run_client : TcpIpClient -> result unit)
  (script dir name cls ip p i nb : string) :
  contains "/" name = false ->
  drop_last3 (split_last sep (dir ++ "/" ++ name ++ ".py")) = name
  /\ main import_environment run_client
          [script; dir ++ "/" ++ name ++ ".py"; cls; ip; p; i; nb]
     = match import_environment name cls with
       | Ok _ =>
           main (fun _ _ => Ok tt) run_client
                [script; dir ++ "/" ++ name ++ ".py"; cls; ip; p; i; nb]
       | Raise e => Uncaught e
       end
  /\ (forall client printed,
        main import_environment run_client
             [script; dir ++ "/" ++ name ++ ".py"; cls; ip; p; i; nb]
        = Launched client printed ->
        environment client = (name, cls)).
Proof.
  intros Hname.
  assert (Hmod : drop_last3 (split_last sep (dir ++ "/" ++ name ++ ".py")) = name).
  { rewrite split_last_basename; [apply drop_last3_extension|].
    clear - Hname. induction name as [|a n IH]; [reflexivity|].
    apply contains_cons in Hname. destruct Hname as [Hp Hn].
    change (contains "/" (String a n ++ ".py"))
      with (String.prefix "/" (String a (n ++ ".py")) || contains "/" (n ++ ".py")).
    rewrite (IH Hn), orb_false_r.
    rewrite prefix_char in Hp |- *. exact Hp. }
  split; [exact Hmod|]. split.
  - unfold main, launch. cbn [List.length Nat.eqb negb].
    launcher_args script (dir ++ "/" ++ name ++ ".py") cls ip p i nb.
    rewrite Hmod. destruct (import_environment name cls) as [[]|e]; reflexivity.
  - intros client printed. unfold main, launch. cbn [List.length Nat.eqb negb].
    launcher_args script (dir ++ "/" ++ name ++ ".py") cls ip p i nb.
    rewrite Hmod.
    destruct (import_environment name cls) as [[]|]; cbn [bind]; [|discriminate].
    destruct (int_of_str p) as [pv|]; cbn [bind]; [|discriminate].
    destruct (int_of_str i) as [iv|]; cbn [bind]; [|discriminate].
    destruct (int_of_str nb) as [nv|]; cbn [bind]; [|discriminate].
    destruct (run_client _) as [[]|]; cbn [bind]; [|discriminate].
    intros H. inversion H; subst. reflexivity.
Qed.

(** X20: when a run of the launcher ends with a client that was launched,
    there were exactly six arguments after the script name, the import of
    the class from the module succeeded, the port, the instance id and the
    number of instances of the client are the integers read from the
    fourth, fifth and sixth arguments, its address is the third, and the
    client ran to its end. *)
Theorem launcher_launched_inversion
  (import_environment : string -> string -> result unit)
  (run_client : TcpIpClient -> result unit)
  (argv : list string) (client : TcpIpClient) (printed : string) :
  main import_environment run_client argv = Launched client printed ->
  exists script a1 a2 a3 a4 a5 a6,
    argv = [script; a1; a2; a3; a4; a5; a6]
    /\ environment client = (drop_last3 (split_last sep a1), a2)
    /\ import_environment (drop_last3 (split_last sep a1)) a2 = Ok tt
    /\ ip_address client = a3
    /\ int_of_str a4 = Ok (port client)
    /\ int_of_str a5 = Ok (instance_id client)
    /\ int_of_str a6 = Ok (instance_nb client)
    /\ run_client client = Ok tt
    /\ printed = "[launcherSofaEnvironment] Shutting down client " ++ a3.
Proof.
  unfold main. intros H.
  destruct (Nat.eqb_spec (List.length argv) 7) as [Hlen|Hlen]; cbn [negb] in H.
  2:{ destruct (list_index argv 0); discriminate. }
  destruct argv as [|script [|a1 [|a2 [|a3 [|a4 [|a5 [|a6 [|a7 rest]]]]]]]];
    try discriminate.
  exists script, a1, a2, a3, a4, a5, a6. split; [reflexivity|].
  unfold launch in H.
  launcher_args script a1 a2 a3 a4 a5 a6.
  revert H. launcher_args script a1 a2 a3 a4 a5 a6.
  destruct (import_environment _ a2) as [[]|]; cbn [bind]; [|discriminate].
  destruct (int_of_str a4) as [p|]; cbn [bind]; [|discriminate].
  destruct (int_of_str a5) as [i|]; cbn [bind]; [|discriminate].
  destruct (int_of_str a6) as [n|]; cbn [bind]; [|discriminate].
  destruct (run_client _) as [[]|] eqn:Erun; cbn [bind]; [|discriminate].
  intros H. inversion H; subst. cbn. repeat split; auto.
Qed.

(** X21: with six arguments, an exception raised by the import of the
    environment class is what the run ends with, before any argument is
    converted; after a successful import, a port, an instance id or a
    number of instances that is not an integer ends the run with
    [ValueError] and no client is run; an exception of the client itself
    ends the run with that exception. *)
Theorem launcher_failures
  (import_environment : string -> string -> result unit)
  (run_client : TcpIpClient -> result unit)
  (script a1 a2 a3 a4 a5 a6 : string) :
  (forall e,
     import_environment (drop_last3 (split_last sep a1)) a2 = Raise e ->
     main import_environment run_client [script; a1; a2; a3; a4; a5; a6]
     = Uncaught e)
  /\ (import_environment (drop_last3 (split_last sep a1)) a2 = Ok tt ->
      int_of_str a4 = Raise ValueError
      \/ int_of_str a5 = Raise ValueError
      \/ int_of_str a6 = Raise ValueError ->
      forall other_run,
        main import_environment other_run [script; a1; a2; a3; a4; a5; a6]
        = Uncaught ValueError)
  /\ (forall p i n e,
        import_environment (drop_last3 (split_last sep a1)) a2 = Ok tt ->
        int_of_str a4 = Ok p -> int_of_str a5 = Ok i -> int_of_str a6 = Ok n ->
        run_client {| environment := (drop_last3 (split_last sep a1), a2);
                      ip_address := a3; port := p;
                      instance_id := i; instance_nb := n |} = Raise e ->
        main import_environment run_client [script; a1; a2; a3; a4; a5; a6]
        = Uncaught e).
Proof.
  assert (Hint : forall s e, int_of_str s = Raise e -> e = ValueError).
  { intros s e. unfold int_of_str.
    destruct (match lstrip (rstrip s) with
              | EmptyString => _ | String _ _ => _ end);
      intros H; now inversion H. }
  split; [|split].
  - intros e Hi. unfold main, launch. cbn [List.length Nat.eqb negb].
    launcher_args script a1 a2 a3 a4 a5 a6. now rewrite Hi.
  - intros Hi Hbad other_run. unfold main, launch. cbn [List.length Nat.eqb negb].
    launcher_args script a1 a2 a3 a4 a5 a6. rewrite Hi. cbn [bind].
    destruct (int_of_str a4) as [p|e4] eqn:E4; cbn [bind];
      [|now rewrite (Hint _ _ E4)].
    destruct (int_of_str a5) as [i|e5] eqn:E5; cbn [bind];
      [|now rewrite (Hint _ _ E5)].
    destruct (int_of_str a6) as [n|e6] eqn:E6; cbn [bind];
      [|now rewrite (Hint _ _ E6)].
    destruct Hbad as [Hb|[Hb|Hb]]; discriminate.
  - intros p i n e Hi H4 H5 H6 Hrun. unfold main, launch.
    cbn [List.length Nat.eqb negb].
    launcher_args script a1 a2 a3 a4 a5 a6.
    rewrite Hi. cbn [bind]. rewrite H4, H5, H6. cbn [bind].
    now rewrite Hrun.
Qed.

(** ** [compute_prediction_and_loss]: the same inputs as online *)

Lemma array_of_list_singleton (a : ndarray) :
  array_of_list [a] = Ok (array1 a).
Proof.
  unfold array_of_list, array1. cbn. now rewrite app_nil_r.
Qed.

Lemma prepare_field_and_batch_field
  (numpy_to_tensor_grad : ndarray -> bool -> tensor)
  (net : Network) (norm : dict (list Q)) (optimize : bool)
  (field : string) (a : ndarray) :
  match prepare_field net norm field (PArray a) with
  | Ok t =>
      exists prepared,
        t = numpy_to_tensor net prepared
        /\ prepare_batch_field numpy_to_tensor_grad optimize norm field [a]
           = Ok (numpy_to_tensor_grad prepared optimize)
  | Raise e =>
      prepare_batch_field numpy_to_tensor_grad optimize norm field [a] = Raise e
  end.
Proof.
  unfold prepare_field, prepare_batch_field.
  rewrite array_of_list_singleton. cbn [bind array_of_singleton].
  destruct (dict_get field norm) as [coeffs|].
  - destruct (normalize_data (array1 a) coeffs false) as [b|e]; cbn [bind]; eauto.
  - cbn [bind]. eauto.
Qed.

(** X23: a training batch made of one line and the online sample of an
    Exchange row that holds the same arrays are prepared alike: field by
    field, the array given to the tensor conversion (one-element batch,
    normalized with the coefficients of the field when there are some) is
    the same, and when one preparation raises, the other raises the same
    exception. *)
Theorem training_and_online_inputs_agree
  (numpy_to_tensor_grad : ndarray -> bool -> tensor)
  (net : Network) (norm : dict (list Q)) (optimize : bool)
  (fields : dict ndarray) :
  match dict_mapM (prepare_field net norm)
                  (map (fun e => (fst e, PArray (snd e))) fields) with
  | Ok online =>
      exists prepared : dict ndarray,
        online = map (fun e => (fst e, numpy_to_tensor net (snd e))) prepared
        /\ dict_mapM (prepare_batch_field numpy_to_tensor_grad optimize norm)
                     (map (fun e => (fst e, [snd e])) fields)
           = Ok (map (fun e => (fst e, numpy_to_tensor_grad (snd e) optimize))
                     prepared)
  | Raise e =>
      dict_mapM (prepare_batch_field numpy_to_tensor_grad optimize norm)
                (map (fun e => (fst e, [snd e])) fields)
      = Raise e
  end.
Proof.
  unfold dict_mapM.
  induction fields as [|[k a] fields IH]; cbn [map mapM fst snd].
  - exists []. split; reflexivity.
  - pose proof (prepare_field_and_batch_field
                  numpy_to_tensor_grad net norm optimize k a) as Hk.
    destruct (prepare_field net norm k (PArray a)) as [t|e]; cbn [bind].
    + destruct Hk as (p & -> & ->). cbn [bind].
      destruct (mapM _ (map (fun e => (fst e, PArray (snd e))) fields))
        as [online|e]; cbn [bind].
      * destruct IH as (prepared & -> & ->). cbn [bind].
        exists ((k, p) :: prepared). split; reflexivity.
      * rewrite IH. reflexivity.
    + rewrite Hk. reflexivity.
Qed.

(** ** Sessions: the names of the files a constructed manager writes *)

Lemma init_template
  (copy_dir : string -> string -> string -> filesystem -> string * filesystem)
  (create_dir : string -> string -> filesystem -> string * filesystem)
  (line_id_base : Z) (cfg : NetworkConfig) (pipeline session_ : string)
  (new_session_ : bool) (w w' : world) (m : NetworkManager) :
  init copy_dir create_dir line_id_base cfg pipeline session_ new_session_ w
  = Ok (m, w') ->
  network_template_name m = split_last sep session_ ++ "_network_{}".
Proof.
  unfold init. intros H.
  destruct (String.eqb pipeline "training" && negb (training_stuff cfg));
    [discriminate|].
  destruct (String.eqb pipeline "training").
  - destruct (cfg_network_dir cfg) as [src|].
    + destruct (new_session_ && isdir src _).
      * destruct (copy_dir src session_ "networks" _) as [dir fs'].
        apply load_network_Ok in H. now destruct H as [-> _].
      * destruct (create_dir session_ "networks" _) as [dir fs'].
        now inversion H.
    + destruct (create_dir session_ "networks" _) as [dir fs'].
      now inversion H.
  - apply load_network_Ok in H. now destruct H as [-> _].
Qed.

(** X9: whatever calls were made since the construction of a manager for
    a session whose last path component [base] has no brace, an
    intermediate save that succeeds ends with one [save_parameters], under
    [backup_network] or under [base_network_c], [c] being the save counter
    after the call, both in the network directory set by the
    constructor. *)
Theorem session_snapshot_names
  (copy_dir : string -> string -> string -> filesystem -> string * filesystem)
  (create_dir : string -> string -> filesystem -> string * filesystem)
  (line_id_base : Z) (cfg : NetworkConfig) (pipeline session_ : string)
  (new_session_ : bool) (w0 w1 w w' : world) (m0 m m' : NetworkManager)
  (calls : list call) :
  contains "{" (split_last sep session_) = false ->
  contains "}" (split_last sep session_) = false ->
  init copy_dir create_dir line_id_base cfg pipeline session_ new_session_ w0
  = Ok (m0, w1) ->
  run calls (m0, w1) = Ok (m, w) ->
  save_network false m w = Ok (m', w') ->
  last_event w' = SaveParameters (join (network_dir m0) "backup_network")
  \/ last_event w'
     = SaveParameters
         (join (network_dir m0)
               (split_last sep session_ ++ "_network_"
                ++ str_of_int (saved_counter m'))).
Proof.
  intros Ho Hc Hinit Hrun Hsave.
  apply init_template in Hinit.
  apply run_same_configuration in Hrun.
  destruct Hrun as (_ & Hd & Ht & _).
  rewrite <- Hd. rewrite Hinit in Ht.
  exact (save_network_written_path m m' w w' _ Ht Ho Hc Hsave).
Qed.

(** ** [compute_prediction_and_loss]: which coefficients matter *)

Lemma dict_mapM_ext {V W : Type} (f g : string -> V -> result W) (d : dict V) :
  (forall k v, In (k, v) d -> f k v = g k v) ->
  dict_mapM f d = dict_mapM g d.
Proof.
  unfold dict_mapM. induction d as [|[k v] d IH]; intros H; [reflexivity|].
  cbn [mapM fst snd]. rewrite (H k v (or_introl eq_refl)).
  rewrite IH; [reflexivity|]. intros k' v' Hin. apply H. now right.
Qed.

(** X24: the loss and the optimization flag computed for a batch depend on
    the normalization only through the entries listed under the names of
    the fields of the two batches: [None], the empty dictionary and a
    dictionary of coefficients for other names all give the same
    result. *)
Theorem prediction_and_loss_normalization_keys
  (opt_fields : list string)
  (get_lines : list string -> list Z -> DatabaseHandler
               -> result (dict (list ndarray)))
  (numpy_to_tensor_grad : ndarray -> bool -> tensor)
  (compute_loss : dict tensor -> option (dict tensor) -> dict Q)
  (optimize : bool) (data_lines : list Z)
  (n1 n2 : option (dict (list Q))) (m : NetworkManager) (net : Network)
  (batch_net batch_opt : dict (list ndarray)) :
  network m = Some net ->
  get_lines (net_fields net) data_lines (database_handler m) = Ok batch_net ->
  get_lines opt_fields data_lines (database_handler m) = Ok batch_opt ->
  (forall field,
     In field (dict_keys batch_net ++ dict_keys batch_opt)%list ->
     dict_get field (or_empty n1) = dict_get field (or_empty n2)) ->
  compute_prediction_and_loss opt_fields get_lines numpy_to_tensor_grad
    compute_loss optimize data_lines n1 m
  = compute_prediction_and_loss opt_fields get_lines numpy_to_tensor_grad
      compute_loss optimize data_lines n2 m.
Proof.
  intros Hn Hb1 Hb2 Hkeys.
  unfold compute_prediction_and_loss, get_network. rewrite Hn. cbn [bind].
  rewrite Hb1. cbn [bind].
  assert (Hext : forall batch,
            (forall field, In field (dict_keys batch) ->
                           dict_get field (or_empty n1) = dict_get field (or_empty n2)) ->
            dict_mapM (prepare_batch_field numpy_to_tensor_grad optimize (or_empty n1)) batch
            = dict_mapM (prepare_batch_field numpy_to_tensor_grad optimize (or_empty n2)) batch).
  { intros batch Hb. apply dict_mapM_ext. intros k v Hin.
    unfold prepare_batch_field. rewrite (Hb k); [reflexivity|].
    unfold dict_keys. apply in_map_iff. exists (k, v). auto. }
  rewrite (Hext batch_net) by (intros f Hf; apply Hkeys; apply in_or_app; auto).
  destruct (dict_mapM _ batch_net) as [data_net|e]; cbn [bind]; [|reflexivity].
  rewrite Hb2. cbn [bind].
  rewrite (Hext batch_opt) by (intros f Hf; apply Hkeys; apply in_or_app; auto).
  reflexivity.
Qed.

(** * Worked examples of the further properties *)



Lemma load_network_index_in_range_witness :
  exists path,
    list_index ["sessions/default/networks/default_network_1.pth";
                "sessions/default/networks/default_network_2.pth"] (-2) = Ok path
    /\ In path ["sessions/default/networks/default_network_1.pth";
                "sessions/default/networks/default_network_2.pth"]
    /\ load_network (-2) prediction_manager two_snapshots_world
       = Ok (prediction_manager,
             emit (LoadParameters path)
                  (emit (Print ("[" ++ name prediction_manager
                                ++ "]: Loading networks from " ++ path ++ "."))
                        two_snapshots_world)).
Proof.
  apply (load_network_index_in_range (-2) prediction_manager two_snapshots_world
           (example_network (scalar_output (3#1)))
           ["sessions/default/networks/default_network_1.pth";
            "sessions/default/networks/default_network_2.pth"]).
  - reflexivity.
  - vm_compute; reflexivity.
  - simpl; lia.
  - simpl; lia.
Defined.

Lemma load_network_only_reads_witness :
  exists m' w',
    load_network (-1) prediction_manager two_snapshots_world = Ok (m', w')
    /\ m' = prediction_manager
    /\ fs w' = fs two_snapshots_world.
Proof.
  assert (H : load_network (-1) prediction_manager two_snapshots_world
              = Ok (prediction_manager,
                    loaded_world "sessions/default/networks/default_network_2.pth"
                                 two_snapshots_world))
    by (vm_compute; reflexivity).
  eexists. eexists. split; [exact H|].
  destruct (load_network_only_reads _ _ _ _ _ H) as (Hm & Hfs & _).
  split; assumption.
Defined.

Lemma list_networks_order_witness :
  exists names snapshots,
    listdir "sessions/default/networks/" (fs finished_session_world) = Ok names
    /\ ["sessions/default/networks/default_network_1.pth";
        "sessions/default/networks/default_network_2.pth";
        "sessions/default/networks/networks.pth"]
       = (snapshots
          ++ map (join "sessions/default/networks/")
                 (filter (fun f => isfile (join "sessions/default/networks/" f)
                                          (fs finished_session_world)
                                   && contains "networks." f) names))%list
    /\ Sorted.Sorted (fun a b => String.leb a b = true) snapshots
    /\ Permutation.Permutation
         snapshots
         (map (join "sessions/default/networks/")
              (filter (fun f => isfile (join "sessions/default/networks/" f)
                                       (fs finished_session_world)
                                && contains "network_" f) names)).
Proof.
  apply (list_networks_order "sessions/default/networks/" finished_session_world).
  vm_compute; reflexivity.
Defined.

Lemma load_network_default_prefers_final_witness :
  exists w',
    load_network (-1) prediction_manager finished_session_world
    = Ok (prediction_manager, w')
    /\ last_event w' = LoadParameters "sessions/default/networks/networks.pth".
Proof.
  edestruct (load_network_default_prefers_final
               prediction_manager finished_session_world
               (example_network (scalar_output (3#1))))
    as (w' & H & Hl).
  - reflexivity.
  - vm_compute; reflexivity.
  - vm_compute; discriminate.
  - exists w'. split; [exact H|]. rewrite Hl. vm_compute; reflexivity.
Defined.

Lemma intermediate_saves_advance_counter_witness :
  exists m' w',
    run (intermediate_saves 3) (training_manager 2, empty_networks_world)
    = Ok (m', w')
    /\ saved_counter m' = 3.
Proof.
  assert (H : exists m' w',
             run (intermediate_saves 3) (training_manager 2, empty_networks_world)
             = Ok (m', w'))
    by (eexists; eexists; vm_compute; reflexivity).
  destruct H as (m' & w' & H). exists m', w'. split; [exact H|].
  destruct (intermediate_saves_advance_counter 3 _ _ _ _ H) as (Hc & _).
  exact Hc.
Defined.

Lemma save_network_removes_backups_witness :
  exists m' w' names,
    save_network false (training_manager 0) finished_session_world = Ok (m', w')
    /\ listdir (network_dir (training_manager 0)) (fs finished_session_world)
       = Ok names.
Proof.
  assert (H : exists m' w',
             save_network false (training_manager 0) finished_session_world
             = Ok (m', w'))
    by (eexists; eexists; vm_compute; reflexivity).
  destruct H as (m' & w' & H).
  destruct (save_network_removes_backups _ _ _ _ H) as (names & _ & _ & _ & _ & Hl & _).
  exists m', w', names. split; assumption.
Defined.

Lemma session_snapshot_names_witness :
  exists m0 w1 m' w',
    init example_copy_dir example_create_dir 0
         (example_config (Some "MSELoss") (Some "Adam") 2 (scalar_output (3#1)))
         "training" "sessions/default" true
         {| fs := session_dirs; trace := [] |} = Ok (m0, w1)
    /\ save_network false m0 w1 = Ok (m', w')
    /\ (last_event w'
        = SaveParameters (join (network_dir m0) "backup_network")
        \/ last_event w'
           = SaveParameters
               (join (network_dir m0)
                     (split_last sep "sessions/default" ++ "_network_"
                      ++ str_of_int (saved_counter m')))).
Proof.
  assert (Hi : exists m0 w1,
             init example_copy_dir example_create_dir 0
                  (example_config (Some "MSELoss") (Some "Adam") 2
                                  (scalar_output (3#1)))
                  "training" "sessions/default" true
                  {| fs := session_dirs; trace := [] |} = Ok (m0, w1)
             /\ exists m' w', save_network false m0 w1 = Ok (m', w'))
    by (eexists; eexists; split; [vm_compute; reflexivity|];
        eexists; eexists; vm_compute; reflexivity).
  destruct Hi as (m0 & w1 & Hi & m' & w' & Hs).
  exists m0, w1, m', w'. split; [exact Hi|]. split; [exact Hs|].
  apply (session_snapshot_names
           example_copy_dir example_create_dir 0
           (example_config (Some "MSELoss") (Some "Adam") 2 (scalar_output (3#1)))
           "training" "sessions/default" true
           {| fs := session_dirs; trace := [] |} w1 w1 w' m0 m0 m' []).
  - reflexivity.
  - reflexivity.
  - exact Hi.
  - reflexivity.
  - exact Hs.
Defined.

Lemma save_network_no_cadence_witness :
  exists m' w',
    save_network false (training_manager 0) finished_session_world = Ok (m', w')
    /\ m' = training_manager 0.
Proof.
  assert (H : exists m' w',
             save_network false (training_manager 0) finished_session_world
             = Ok (m', w'))
    by (eexists; eexists; vm_compute; reflexivity).
  destruct H as (m' & w' & H). exists m', w'. split; [exact H|].
  apply (save_network_no_cadence (training_manager 0) m' finished_session_world w').
  - simpl. lia.
  - exact H.
Defined.

Lemma online_prediction_unregistered_target_witness :
  compute_online_prediction 0 None unregistered_manager = Raise KeyError.
Proof.
  apply (online_prediction_unregistered_target
           0 None unregistered_manager unregistered_network
           [("input", Tensor {| shape := [1%nat; 1%nat]; data := [5#1]%Q |})]
           [] [] [] "X"
           (Tensor (scalar_output (3#1)))
           (Tensor {| shape := [1%nat]; data := [3#1]%Q |})).
  - reflexivity.
  - vm_compute; reflexivity.
  - reflexivity.
  - reflexivity.
  - reflexivity.
  - reflexivity.
Defined.

Lemma online_prediction_payload_witness :
  exists m' payload,
    compute_online_prediction 0 (Some [("ground_truth", [1#1; 2#1]%Q)])
      (example_exchange_manager (scalar_output (3#1))) = Ok m'
    /\ update payload 0
              (database_handler (example_exchange_manager (scalar_output (3#1))))
       = Ok (database_handler m').
Proof.
  assert (H : exists m',
             compute_online_prediction 0 (Some [("ground_truth", [1#1; 2#1]%Q)])
               (example_exchange_manager (scalar_output (3#1))) = Ok m')
    by (eexists; vm_compute; reflexivity).
  destruct H as (m' & H).
  destruct (online_prediction_payload _ _ _ _ H)
    as (net & sample & payload & _ & _ & Hu & _).
  exists m', payload. split; assumption.
Defined.

Lemma online_prediction_network_input_witness :
  exists sample,
    prepared_sample 0 [] (example_exchange_manager (scalar_output (3#1)))
    = Ok sample
    /\ dict_get "id" sample = None.
Proof.
  assert (H : exists sample,
             prepared_sample 0 [] (example_exchange_manager (scalar_output (3#1)))
             = Ok sample)
    by (eexists; vm_compute; reflexivity).
  destruct H as (sample & H). exists sample. split; [exact H|].
  apply (online_prediction_network_input 0 []
           (example_exchange_manager (scalar_output (3#1))) sample H).
Defined.

Lemma manager_unusable_after_close_witness :
  exists m' w',
    close prediction_manager two_snapshots_world = Ok (m', w')
    /\ close m' w' = Raise AttributeError.
Proof.
  assert (H : exists m' w',
             close prediction_manager two_snapshots_world = Ok (m', w'))
    by (eexists; eexists; vm_compute; reflexivity).
  destruct H as (m' & w' & H). exists m', w'. split; [exact H|].
  apply (manager_unusable_after_close prediction_manager m' two_snapshots_world w' H).
Defined.

Lemma init_prediction_loads_session_networks_witness :
  init example_copy_dir example_create_dir 0
       (example_config None None 0 (scalar_output (3#1)))
       "prediction" "sessions/default" true
       {| fs := session_dirs; trace := [] |}
  = Raise FileNotFoundError.
Proof.
  assert (Hp : "prediction" <> "training") by discriminate.
  apply (proj2 (init_prediction_loads_session_networks
                  example_copy_dir example_create_dir 0
                  (example_config None None 0 (scalar_output (3#1)))
                  "prediction" "sessions/default" true
                  {| fs := session_dirs; trace := [] |} Hp)).
  vm_compute; reflexivity.
Defined.

Lemma init_training_fresh_session_witness :
  exists m,
    init example_copy_dir example_create_dir 0
         (example_config (Some "MSELoss") (Some "Adam") 2 (scalar_output (3#1)))
         "training" "sessions/default" true
         {| fs := session_dirs; trace := [] |}
    = Ok (m, {| fs := (session_dirs ++ [("sessions/default/networks", Dir)])%list;
                trace := [SetDevice; SetTrain] |})
    /\ network_dir m = "sessions/default/networks/".
Proof.
  destruct (init_training_fresh_session
              example_copy_dir example_create_dir 0
              (example_config (Some "MSELoss") (Some "Adam") 2 (scalar_output (3#1)))
              "sessions/default" true {| fs := session_dirs; trace := [] |})
    as (m & Hi & Hd & _).
  - reflexivity.
  - left. reflexivity.
  - exists m. split; [exact Hi | exact Hd].
Defined.

Lemma launcher_module_name_witness :
  drop_last3 (split_last sep ("envs" ++ "/" ++ "simulation" ++ ".py"))
  = "simulation".
Proof.
  apply (launcher_module_name (fun _ _ => Ok tt) example_run_client
           "launcher_sofa_environment.py" "envs" "simulation"
           "SpringEnvironment" "localhost" "10000" "1" "4").
  reflexivity.
Defined.

Lemma launcher_launched_inversion_witness :
  exists script a1 a2 a3 a4 a5 a6,
    ["launcher_sofa_environment.py"; "envs/simulation.py"; "SpringEnvironment";
     "localhost"; "10000"; "1"; "4"] = [script; a1; a2; a3; a4; a5; a6]
    /\ int_of_str a4 = Ok 10000.
Proof.
  destruct (launcher_launched_inversion
              (fun _ _ => Ok tt) example_run_client
              ["launcher_sofa_environment.py"; "envs/simulation.py";
               "SpringEnvironment"; "localhost"; "10000"; "1"; "4"]
              {| environment := ("simulation", "SpringEnvironment");
                 ip_address := "localhost"; port := 10000;
                 instance_id := 1; instance_nb := 4 |}
              "[launcherSofaEnvironment] Shutting down client localhost")
    as (script & a1 & a2 & a3 & a4 & a5 & a6 & Hargv & _ & _ & _ & H4 & _).
  - vm_compute; reflexivity.
  - exists script, a1, a2, a3, a4, a5, a6. split; [exact Hargv | exact H4].
Defined.

Lemma launcher_failures_witness :
  main (fun _ _ => Raise SyntaxError) example_run_client
       ["launcher_sofa_environment.py"; "envs/sim"; "SpringEnvironment";
        "localhost"; "port"; "1"; "4"]
  = Uncaught SyntaxError
  /\ main (fun _ _ => Ok tt) example_run_client
          ["launcher_sofa_environment.py"; "envs/simulation.py";
           "SpringEnvironment"; "localhost"; "port"; "1"; "4"]
     = Uncaught ValueError.
Proof.
  split.
  - apply (launcher_failures (fun _ _ => Raise SyntaxError) example_run_client
             "launcher_sofa_environment.py" "envs/sim"
             "SpringEnvironment" "localhost" "port" "1" "4").
    reflexivity.
  - apply (proj1 (proj2 (launcher_failures
                           (fun _ _ => Ok tt) example_run_client
                           "launcher_sofa_environment.py" "envs/simulation.py"
                           "SpringEnvironment" "localhost" "port" "1" "4"))).
    + reflexivity.
    + left. vm_compute; reflexivity.
Defined.

Lemma prediction_and_loss_normalization_keys_witness :
  compute_prediction_and_loss ["X"] example_get_lines (fun a _ => Tensor a)
    example_compute_loss true [0; 1] None (training_manager 0)
  = compute_prediction_and_loss ["X"] example_get_lines (fun a _ => Tensor a)
      example_compute_loss true [0; 1]
      (Some [("other", [1#1; 2#1]%Q)]) (training_manager 0).
Proof.
  apply (prediction_and_loss_normalization_keys
           ["X"] example_get_lines (fun a _ => Tensor a) example_compute_loss
           true [0; 1] None (Some [("other", [1#1; 2#1]%Q)])
           (training_manager 0) (example_network (scalar_output (3#1)))
           [("input", [{| shape := [1%nat]; data := [5#1]%Q |};
                       {| shape := [1%nat]; data := [5#1]%Q |}])]
           [("X", [{| shape := [1%nat]; data := [5#1]%Q |};
                   {| shape := [1%nat]; data := [5#1]%Q |}])]).
  - reflexivity.
  - reflexivity.
  - reflexivity.
  - intros field [<-|[<-|[]]]; reflexivity.
Defined.
